(** * Excel chatbot: the query-to-result pipeline of [streamlit_app.py]

    A shallow embedding of the Python module: the text operations it applies
    to the model's completion ([str.split], [str.strip], [str.splitlines],
    [str.join], [in], [startswith]), the session state kept by Streamlit,
    the functions [process_excel_file], [generate_prompt], [ask_gemini],
    [execute_code], [format_result] and the upload and chat branches of
    [main].

    Python text is modelled by [string]; a character is a code point below
    256.  The libraries the module calls (CPython's [exec] and [str],
    pandas, the Gemini client, the data-dependent Streamlit widgets) are the
    fields of the class [Runtime]: the theorems of the general part hold for
    every runtime, and the runs on concrete runtimes are in the sections of
    examples.  A library call returns, raises or never ends.

    A snippet runs inside the process of the script: what it is handed
    ([df], [pd], [px]) reaches the stored frames, the session, the page and
    the rest of the interpreter, so its run is a change of the whole world.
    So is the [__str__] of an exception whose class a snippet built:
    printing such an exception runs code of the snippet.  The exceptions of
    the library calls that the module makes on its own data (reading the
    workbook, asking for a completion, describing the columns) print as
    their message.  DataFrames are objects on a heap; the session and the
    name [df] of a snippet hold references to them. *)

From Stdlib Require Import ZArith Ascii String List Bool Lia DecimalString.
From stdpp Require Import base option gmap strings.

Local Open Scope Z_scope.

(** ** Python text operations *)

Module PyStr.

Definition chr (n : nat) : ascii := ascii_of_nat n.

(** The line feed, written [\n] in the source. *)
Definition nl : string := String (chr 10) "".

(** [str.isspace] on one code point below 256: the characters removed by
    [str.strip()] without argument. *)
Definition is_space (c : ascii) : bool :=
  let n := nat_of_ascii c in
  ((9 <=? n)%nat && (n <=? 13)%nat) || ((28 <=? n)%nat && (n <=? 32)%nat)
  || (n =? 133)%nat || (n =? 160)%nat.

(** The line boundaries of [str.splitlines] below 256: LF, VT, FF, CR, FS,
    GS, RS and NEL (a CR LF pair counts once, see [splitlines]). *)
Definition is_linebreak (c : ascii) : bool :=
  let n := nat_of_ascii c in
  ((10 <=? n)%nat && (n <=? 13)%nat) || ((28 <=? n)%nat && (n <=? 30)%nat)
  || (n =? 133)%nat.

Fixpoint lstrip (s : string) : string :=
  match s with
  | EmptyString => EmptyString
  | String c s' => if is_space c then lstrip s' else s
  end.

Fixpoint rstrip (s : string) : string :=
  match s with
  | EmptyString => EmptyString
  | String c s' =>
      match rstrip s' with
      | EmptyString => if is_space c then EmptyString else String c EmptyString
      | r => String c r
      end
  end.

(** [s.strip()] *)
Definition strip (s : string) : string := rstrip (lstrip s).

(** [s.startswith(p)] *)
Fixpoint startswith (p s : string) : bool :=
  match p, s with
  | EmptyString, _ => true
  | String _ _, EmptyString => false
  | String a p', String b s' => Ascii.eqb a b && startswith p' s'
  end.

(** [s.endswith(p)] *)
Fixpoint endswith (p s : string) : bool :=
  String.eqb p s ||
  match s with
  | EmptyString => false
  | String _ s' => endswith p s'
  end.

(** [sub in s] *)
Fixpoint contains (sub s : string) : bool :=
  startswith sub s ||
  match s with
  | EmptyString => false
  | String _ s' => contains sub s'
  end.

Fixpoint drop (n : nat) (s : string) : string :=
  match n, s with
  | O, _ => s
  | S _, EmptyString => EmptyString
  | S n', String _ s' => drop n' s'
  end.

(** [s.partition(sep)] at the first occurrence of [sep], scanning from the
    left: the text before it and the text after it; [None] when [sep] does
    not occur. *)
Fixpoint partition (sep s : string) : option (string * string) :=
  if startswith sep s then Some (EmptyString, drop (String.length sep) s)
  else match s with
       | EmptyString => None
       | String c s' =>
           match partition sep s' with
           | Some (a, b) => Some (String c a, b)
           | None => None
           end
       end.

(** [s.split(sep)] for a non-empty [sep]: cut at the first occurrence,
    continue on what follows it.  Every cut removes at least one character,
    so [S (length s)] rounds always suffice ([split_rounds_enough]). *)
Fixpoint split_rounds (n : nat) (sep s : string) : list string :=
  match n with
  | O => [s]
  | S n' =>
      match partition sep s with
      | None => [s]
      | Some (a, b) => a :: split_rounds n' sep b
      end
  end.

Definition split (sep s : string) : list string :=
  split_rounds (S (String.length s)) sep s.

(** [l[-1]] and [l[0]] on the non-empty list [split] returns. *)
Definition last_item (l : list string) : string := List.last l EmptyString.
Definition first_item (l : list string) : string := List.hd EmptyString l.

(** [s.splitlines()]: no empty last line after a final boundary, and the
    empty text has no line. *)
Fixpoint splitlines (s : string) : list string :=
  match s with
  | EmptyString => []
  | String c s' =>
      if is_linebreak c then
        EmptyString ::
          match s' with
          | String c' s'' =>
              if ((nat_of_ascii c =? 13)%nat && (nat_of_ascii c' =? 10)%nat)%bool
              then splitlines s'' else splitlines s'
          | EmptyString => []
          end
      else
        match splitlines s' with
        | [] => [String c EmptyString]
        | l :: ls => String c l :: ls
        end
  end.

(** [sep.join(l)] *)
Fixpoint join (sep : string) (l : list string) : string :=
  match l with
  | [] => EmptyString
  | [x] => x
  | x :: xs => x +:+ sep +:+ join sep xs
  end.

(** Truth value of a text in a condition: non-empty. *)
Definition truthy (s : string) : bool :=
  match s with EmptyString => false | _ => true end.

End PyStr.

(** ** Values, exceptions and the session *)

(** A pandas DataFrame: its column labels and its rows. *)
Inductive Cell :=
| CNum (z : Z)
| CText (s : string)
| CMissing.

Record DataFrame := mkFrame {
  df_columns : list string;
  df_rows : list (list Cell)
}.

(** [len(df)] and [len(df.columns)] *)
Definition len_rows (d : DataFrame) : Z := Z.of_nat (length (df_rows d)).
Definition len_columns (d : DataFrame) : Z := Z.of_nat (length (df_columns d)).

Definition empty_frame : DataFrame := mkFrame [] [].

(** [df.head()]: a new frame of the first five rows. *)
Definition df_head (d : DataFrame) : DataFrame :=
  mkFrame (df_columns d) (firstn 5 (df_rows d)).

(** A plotly [go.Figure], kept as its description. *)
Record Figure := mkFigure { fig_spec : string }.

(** Frames are objects: a value holds a reference to one, and the object
    lives on the heap, where every holder of the reference sees it. *)
Definition loc := positive.

#[local] Set Warnings "-register-all".

Inductive PyValue :=
| VNone
| VBool (b : bool)
| VInt (z : Z)
| VFloat (repr : string)
| VStr (s : string)
| VList (items : list PyValue)
| VDict (items : list (PyValue * PyValue))
| VFrame (l : loc)
| VFigure (f : Figure)
| VModule (name : string)
| VObject (cls : string).

Inductive Sender := User | Assistant.

(** One entry of [st.session_state.chat_history]. *)
Record Turn := mkTurn { sender : Sender; text : string }.

(** [st.session_state]: every key of lines 18-29 and [uploaded_filename],
    each with a value of its kind.  Code that deleted a key or put an
    object of another kind under one would leave a session that this
    record does not describe: the statements about a whole turn are made
    for turns in which the code of the snippet leaves the session as it
    is. *)
Record Session := mkSession {
  df : option loc;
  last_response : option string;
  last_query : option string;
  chat_history : list Turn;
  suggestion : string;
  example_query : option string;
  uploaded_filename : option string
}.

(** Lines 18-29: the keys a script run creates when they are missing. *)
Definition init_session : Session :=
  mkSession None None None [] "" None None.

(** What a script run puts on the page. *)
Inductive Widget :=
| StError (msg : string)
| StWarning (msg : string)
| StSuccess (msg : string)
| StMarkdown (body : string)
| StDataframe (l : loc)
| StPreview (d : DataFrame)
| StDownloadButton (label data file_name mime : string)
| StPlotlyChart (f : Figure)
| StWrite (v : PyValue).

(** The process of the script: the frames, the session, the page, and
    [ambient], the rest of the interpreter's state (random generators,
    module attributes), which the module itself never reads. *)
Record World := mkWorld {
  heap : gmap loc DataFrame;
  session : Session;
  screen : list Widget;
  ambient : N
}.

Record UploadedFile := mkUpload { file_name : string; file_bytes : string }.

(** How a call ends: it returns, it raises, or it never ends. *)
Inductive OutcomeOf (E A : Type) :=
| Returns (a : A)
| Raises (e : E)
| Hangs.
Arguments Returns {E A} a.
Arguments Raises {E A} e.
Arguments Hangs {E A}.

(** A raised exception: whether its class derives from [Exception] (what
    [except Exception] catches; [KeyboardInterrupt], [SystemExit] and
    Streamlit's script-control exceptions derive from [BaseException]
    only), the class name, and [str(e)].  Printing an exception runs the
    [__str__] of its class, which for a class built by a snippet is code of
    the snippet: it runs in the process of the script and may return a
    text, raise in its turn or never end. *)
Inductive PyExc :=
| mkExc (is_Exception : bool) (cls : string)
        (str : World → OutcomeOf PyExc string * World).

Definition exc_is_Exception (e : PyExc) : bool :=
  match e with mkExc b _ _ => b end.
Definition exc_class (e : PyExc) : string :=
  match e with mkExc _ c _ => c end.
Definition exc_str (e : PyExc) : World → OutcomeOf PyExc string * World :=
  match e with mkExc _ _ s => s end.

Abbreviation Outcome := (OutcomeOf PyExc).

(** An exception raised by a library call that the module makes on its own
    data (the reader of the workbook, the completion client, pandas on the
    stored frame): an object of a class of the library, whose printing is
    its message. *)
Record LibError := mkError {
  err_is_Exception : bool;
  err_class : string;
  err_text : string
}.

(** A library exception as the handlers see it. *)
Definition of_library (e : LibError) : PyExc :=
  mkExc (err_is_Exception e) (err_class e) (fun w => (Returns (err_text e), w)).

(** The libraries behind the module. *)
Class Runtime := {
  (** [exec(code, globals, locals)], run in the process of the script: the
      final local bindings, or the exception raised (a [SyntaxError]
      included), or no end; and the world the run leaves, also when it
      raises *)
  py_exec : string → gmap string PyValue → gmap string PyValue →
            World → Outcome (gmap string PyValue) * World;
  (** [str(v)] *)
  py_str : gmap loc DataFrame → PyValue → string;
  (** [model.generate_content(prompt).text] *)
  generate_content : string → OutcomeOf LibError string;
  (** [pd.read_excel(uploaded_file)] *)
  read_excel : UploadedFile → OutcomeOf LibError DataFrame;
  (** [df[col].dtype] and [df[col].dropna().head(2).tolist()], as printed *)
  dtype_text : DataFrame → string → OutcomeOf LibError string;
  sample_text : DataFrame → string → OutcomeOf LibError string;
  (** [result.to_csv(index=False)] *)
  to_csv : gmap loc DataFrame → loc → string;
  (** the exception, if any, that showing this value raises in
      [st.dataframe], [st.plotly_chart] or [st.write] *)
  display_fault : gmap loc DataFrame → PyValue → option PyExc;
  (** the exception, if any, that [st.dataframe] raises on the frame of
      the preview *)
  preview_fault : DataFrame → option PyExc
}.

(** ** A state and exception monad for one script run *)

#[export] Instance Outcome_ret {E} : MRet (OutcomeOf E) := @Returns E.
#[export] Instance Outcome_bind {E} : MBind (OutcomeOf E) :=
  fun A B k o =>
    match o with
    | Returns a => k a
    | Raises e => Raises e
    | Hangs => Hangs
    end.

Definition M (A : Type) : Type := World → Outcome A * World.

Definition ret {A} (a : A) : M A := fun w => (Returns a, w).

Definition bind {A B} (m : M A) (k : A → M B) : M B :=
  fun w =>
    match m w with
    | (Returns a, w') => k a w'
    | (Raises e, w') => (Raises e, w')
    | (Hangs, w') => (Hangs, w')
    end.

Definition raise {A} (e : PyExc) : M A := fun w => (Raises e, w).

(** A call into a library that leaves the world alone. *)
Definition call {A} (o : OutcomeOf LibError A) : M A :=
  fun w =>
    match o with
    | Returns a => (Returns a, w)
    | Raises e => (Raises (of_library e), w)
    | Hangs => (Hangs, w)
    end.

(** [try: body / except Exception as e: handler]: what the body did before
    raising stays done; an exception outside [Exception] passes through,
    and so does what the handler raises. *)
Definition try_except {A} (body : M A) (handler : PyExc → M A) : M A :=
  fun w =>
    match body w with
    | (Returns a, w') => (Returns a, w')
    | (Raises e, w') =>
        if exc_is_Exception e then handler e w' else (Raises e, w')
    | (Hangs, w') => (Hangs, w')
    end.

#[export] Instance M_ret : MRet M := @ret.
#[export] Instance M_bind : MBind M := fun A B k m => bind m k.

Definition get_session : M Session := fun w => (Returns (session w), w).
Definition get_heap : M (gmap loc DataFrame) := fun w => (Returns (heap w), w).

Definition with_heap (h : gmap loc DataFrame) (w : World) : World :=
  mkWorld h (session w) (screen w) (ambient w).
Definition with_session (s : Session) (w : World) : World :=
  mkWorld (heap w) s (screen w) (ambient w).

Definition put_session (s : Session) : M unit :=
  fun w => (Returns tt, with_session s w).

Definition put_heap (h : gmap loc DataFrame) : M unit :=
  fun w => (Returns tt, with_heap h w).

(** The world with [x] drawn on the page. *)
Definition drawn (x : Widget) (w : World) : World :=
  mkWorld (heap w) (session w) (screen w ++ [x]) (ambient w).

(** A Streamlit call that draws a widget. *)
Definition st (x : Widget) : M unit := fun w => (Returns tt, drawn x w).

(** The exception [st.rerun()] raises. *)
Definition rerun : PyExc := mkExc false "RerunException" (ret "").

(** [st.rerun()] stops the run with a script-control exception. *)
Definition st_rerun {A} : M A := raise rerun.

(** [str(e)], also inside an f-string. *)
Definition str_of (e : PyExc) : M string := exc_str e.

Definition set_df (v : option loc) (s : Session) : Session :=
  mkSession v (last_response s) (last_query s) (chat_history s)
            (suggestion s) (example_query s) (uploaded_filename s).
Definition set_last_response (v : option string) (s : Session) : Session :=
  mkSession (df s) v (last_query s) (chat_history s)
            (suggestion s) (example_query s) (uploaded_filename s).
Definition set_last_query (v : option string) (s : Session) : Session :=
  mkSession (df s) (last_response s) v (chat_history s)
            (suggestion s) (example_query s) (uploaded_filename s).
Definition set_chat_history (v : list Turn) (s : Session) : Session :=
  mkSession (df s) (last_response s) (last_query s) v
            (suggestion s) (example_query s) (uploaded_filename s).
Definition set_example_query (v : option string) (s : Session) : Session :=
  mkSession (df s) (last_response s) (last_query s) (chat_history s)
            (suggestion s) v (uploaded_filename s).
Definition set_uploaded_filename (v : option string) (s : Session) : Session :=
  mkSession (df s) (last_response s) (last_query s) (chat_history s)
            (suggestion s) (example_query s) v.

Definition modify_session (f : Session → Session) : M unit :=
  s ← get_session; put_session (f s).

(** [st.session_state.chat_history.append({"sender": ..., "text": ...})] *)
Definition append_turn (who : Sender) (t : string) : M unit :=
  modify_session (fun s => set_chat_history (chat_history s ++ [mkTurn who t]) s).

(** The frame a reference designates.  A reference held by the session or
    bound to [df] always designates a frame; the default is for references
    that designate none. *)
Definition frame_at (h : gmap loc DataFrame) (l : loc) : DataFrame :=
  default empty_frame (h !! l).

(** ** The functions of the module *)

Section App.

Context `{RT : Runtime}.
Import PyStr.

Definition MAX_ROWS : Z := 500.
Definition MAX_COLS : Z := 20.

(** An integer inside an f-string. *)
Definition str_of_int (z : Z) : string :=
  NilEmpty.string_of_int (Z.to_int z).

(** [process_excel_file]: the frame read from the file, or [None] after an
    error message.  The frame returned is not yet known to the session:
    it reaches the heap when [main] stores it. *)
Definition process_excel_file (uploaded_file : UploadedFile)
  : M (option DataFrame) :=
  try_except
    (d ← call (read_excel uploaded_file);
     if len_rows d >? MAX_ROWS then
       st (StError ("Too many rows. Max allowed: " +:+ str_of_int MAX_ROWS));;
       ret None
     else if len_columns d >? MAX_COLS then
       st (StError ("Too many columns. Max allowed: " +:+ str_of_int MAX_COLS));;
       ret None
     else ret (Some d))
    (fun e =>
       msg ← str_of e;
       st (StError ("Error processing Excel file: " +:+ msg));;
       ret None).

(** The line of one column: the f-string of line 49 reads the type, then
    the sample; either read may raise (with a duplicated label [df[col]] is
    a frame, which has no [dtype]). *)
Definition column_line (d : DataFrame) (col : string)
  : OutcomeOf LibError string :=
  ty ← dtype_text d col;
  sm ← sample_text d col;
  mret ("- " +:+ col +:+ " (type: " +:+ ty +:+ ", sample: " +:+ sm +:+ ")").

(** Lines 48-51: the lines of the columns, in the order of the columns;
    the first read that raises ends the loop. *)
Fixpoint column_lines (d : DataFrame) (cols : list string)
  : OutcomeOf LibError (list string) :=
  match cols with
  | [] => mret []
  | col :: rest =>
      line ← column_line d col;
      lines ← column_lines d rest;
      mret (line :: lines)
  end.

(** Lines 52-72: the template around the column lines and the query. *)
Definition prompt_of (lines : list string) (query : string) : string :=
  let column_info := join nl lines in
  strip (join nl
    [ "";
      "You are an intelligent Excel data analyst. You are working with a pandas DataFrame named `df` and answering user questions about its content.";
      "";
      "Your behavior:";
      "1. If the question is factual, return the **answer in plain English**.";
      "2. If it needs calculations/statistics/visuals, return **Python code only** using `pandas` and/or `plotly.express` with variable named `result`.";
      "";
      "Rules:";
      "- Do NOT import anything.";
      "- Do NOT print or explain.";
      "- Do NOT load files.";
      "- Only output either a Python code block or a plain text answer.";
      "";
      "DataFrame structure:";
      column_info;
      "";
      "Question: " +:+ query;
      "";
      "Answer:";
      "" ]).

(** [generate_prompt] *)
Definition generate_prompt (d : DataFrame) (query : string)
  : OutcomeOf LibError string :=
  lines ← column_lines d (df_columns d);
  mret (prompt_of lines query).

(** [ask_gemini] *)
Definition ask_gemini (prompt : string) : M string :=
  try_except
    (t ← call (generate_content prompt);
     ret (strip t))
    (fun e =>
       msg ← str_of e;
       st (StError ("Gemini Flash error: " +:+ msg));;
       ret "").

(** The two dictionaries [execute_code] hands to [exec]. *)
Definition sandbox_globals : gmap string PyValue :=
  {[ "__builtins__" := VDict [] ]}.

Definition sandbox_locals (frame : loc) : gmap string PyValue :=
  <[ "df" := VFrame frame ]>
    (<[ "pd" := VModule "pandas" ]>
       {[ "px" := VModule "plotly.express" ]}).

(** [exec(code, globals, locals)] in the process of the run. *)
Definition exec (code : string) (globals locals : gmap string PyValue)
  : M (gmap string PyValue) :=
  fun w => py_exec code globals locals w.

(** [local_vars.get('result')] *)
Definition get_result (local_vars : gmap string PyValue) : PyValue :=
  default VNone (local_vars !! "result").

(** [execute_code]: [frame] is the object the caller passes as [df], the
    one the session holds, not a copy of it. *)
Definition execute_code (code : string) (frame : loc) : M PyValue :=
  try_except
    (local_vars ← exec code sandbox_globals (sandbox_locals frame);
     ret (get_result local_vars))
    (fun e =>
       msg ← str_of e;
       st (StError ("Code execution failed: " +:+ msg));;
       ret VNone).

Definition isinstance_DataFrame (v : PyValue) : bool :=
  match v with VFrame _ => true | _ => false end.

Definition isinstance_Figure (v : PyValue) : bool :=
  match v with VFigure _ => true | _ => false end.

(** [isinstance(result, (str, int, float, list, dict))]; [bool] is a
    subclass of [int]. *)
Definition isinstance_plain (v : PyValue) : bool :=
  match v with
  | VStr _ | VInt _ | VBool _ | VFloat _ | VList _ | VDict _ => true
  | _ => false
  end.

(** The data-dependent call of a branch of [format_result] raises when
    the runtime says so. *)
Definition show (v : PyValue) (x : Widget) : M unit :=
  h ← get_heap;
  match display_fault h v with
  | Some e => raise e
  | None => st x
  end.

(** [format_result] *)
Definition format_result (result : PyValue) : M string :=
  match result with
  | VNone => ret "No result to display."
  | VFrame l =>
      st (StMarkdown "####Tabular Output");;
      show result (StDataframe l);;
      h ← get_heap;
      st (StDownloadButton "Download as CSV" (to_csv h l) "result.csv" "text/csv");;
      ret "Here is the tabular data you requested."
  | VFigure f =>
      st (StMarkdown "####Chart Output");;
      show result (StPlotlyChart f);;
      ret "Here is the chart you requested."
  | _ =>
      if isinstance_plain result then
        st (StMarkdown "####Text Output");;
        show result (StWrite result);;
        h ← get_heap;
        ret (py_str h result)
      else
        st (StWarning "Assistant returned an unknown format.");;
        ret "Assistant returned an unknown format."
  end.

(** The two markers of lines 193 and 195, and the token of line 193. *)
Definition python_fence : string := "```python".
Definition fence : string := "```".
Definition result_token : string := "result =".

(** Line 193 (and 216): the test that sends a completion to the
    executor. *)
Definition is_snippet (response : string) : bool :=
  truthy response && contains result_token response
  && contains python_fence response.

(** Line 195 (and 218) *)
Definition raw_code_of (response : string) : string :=
  strip (first_item (split fence (last_item (split python_fence response)))).

(** Line 196 (and 219) *)
Definition drop_import_lines (raw_code : string) : string :=
  join nl (List.filter (fun line => negb (startswith "import" (strip line)))
                       (splitlines raw_code)).

Definition extract_code (response : string) : string :=
  drop_import_lines (raw_code_of response).

(** Lines 200-201, and again lines 223-224: the handler of the snippet
    path; the f-string prints the exception. *)
Definition log_failure (e : PyExc) : M unit :=
  msg ← str_of e;
  append_turn Assistant ("Failed to process code: " +:+ msg).

(** Lines 194-201, and again lines 217-224: the [try] statement of the
    snippet path. *)
Definition run_snippet_block (frame : loc) (response : string) : M unit :=
  try_except
    (let code := extract_code response in
     result ← execute_code code frame;
     feedback ← format_result result;
     append_turn Assistant feedback)
    log_failure.

(** What [generate_prompt] raises when it is handed [None]. *)
Definition no_frame_error : LibError :=
  mkError true "AttributeError" "'NoneType' object has no attribute 'columns'".

(** [st.session_state.df] where the turn needs the frame: line 188 hands
    it to [generate_prompt], whose first step reads its columns, so that
    [None] raises there; line 197 reads it again, and nothing between the
    two reads changes the session's reference. *)
Definition stored_frame : M loc :=
  s ← get_session;
  match df s with
  | Some frame => ret frame
  | None => raise (of_library no_frame_error)
  end.

(** Lines 185-203, and again lines 208-226: one query, from the user
    turn to the assistant turn. *)
Definition answer_query (query : string) : M unit :=
  append_turn User query;;
  frame ← stored_frame;
  h ← get_heap;
  prompt ← call (generate_prompt (frame_at h frame) query);
  response ← ask_gemini prompt;
  modify_session (set_last_query (Some query));;
  modify_session (set_last_response (Some response));;
  if is_snippet response then run_snippet_block frame response
  else
    append_turn Assistant
      (if truthy response then response else "No answer returned.").

(** The world with turn [t] appended to the log. *)
Definition logged (t : Turn) (w : World) : World :=
  with_session
    (set_chat_history (chat_history (session w) ++ [t]) (session w)) w.

(** The world with lines 190-191 done. *)
Definition asked (query response : string) (w : World) : World :=
  with_session
    (set_last_response (Some response)
       (set_last_query (Some query) (session w))) w.

(** The world in which the snippet of a turn runs: the user turn is in the
    log, query and completion are recorded. *)
Definition before_snippet (query response : string) (w : World) : World :=
  asked query response (logged (mkTurn User query) w).

(** The session once [query] got the completion [response] and the reply
    [reply]. *)
Definition answered (query response reply : string) (s : Session) : Session :=
  set_chat_history
    (chat_history s ++ [mkTurn User query; mkTurn Assistant reply])
    (set_last_response (Some response) (set_last_query (Some query) s)).

(** The message of the bound a frame breaks, rows first. *)
Definition size_error (d : DataFrame) : string :=
  if len_rows d >? MAX_ROWS then "Too many rows. Max allowed: 500"
  else "Too many columns. Max allowed: 20".

(** A completion with two python-fenced blocks, of bodies [b1] and [b2]. *)
Definition two_python_blocks (pre b1 mid b2 post : string) : string :=
  pre +:+ python_fence +:+ b1 +:+ fence +:+ mid +:+
  python_fence +:+ b2 +:+ fence +:+ post.




(** The values whose branch of [format_result] has a data-dependent
    call. *)
Definition is_shown (v : PyValue) : bool :=
  isinstance_DataFrame v || isinstance_Figure v || isinstance_plain v.

(** What [format_result] draws before the data-dependent call. *)
Definition header_widgets (v : PyValue) : list Widget :=
  match v with
  | VNone => []
  | VFrame _ => [StMarkdown "####Tabular Output"]
  | VFigure _ => [StMarkdown "####Chart Output"]
  | _ => if isinstance_plain v then [StMarkdown "####Text Output"] else []
  end.

(** The world with the widgets [xs] drawn after those on the page. *)
Definition drawn_all (xs : list Widget) (w : World) : World :=
  mkWorld (heap w) (session w) (screen w ++ xs) (ambient w).



(** Printing [e] in the world [w] leaves the session as it is. *)
Definition print_keeps_session (e : PyExc) (w : World) : Prop :=
  session (snd (str_of e w)) = session w.

(** What it is for the code of a snippet to leave the session alone, when
    its run on the world [w3] ended in the world [w4] with [o]: the run
    did not change the session, and neither does the [__str__] of the
    exception raised, where a handler of the turn prints it. *)
Definition run_keeps_session
    (o : Outcome (gmap string PyValue)) (w3 w4 : World) : Prop :=
  session w4 = session w3 ∧
  match o with
  | Returns local_vars =>
      is_shown (get_result local_vars) = true →
      match display_fault (heap w4) (get_result local_vars) with
      | Some e =>
          exc_is_Exception e = true →
          print_keeps_session e
            (drawn_all (header_widgets (get_result local_vars)) w4)
      | None => True
      end
  | Raises e =>
      exc_is_Exception e = true →
      print_keeps_session e w4 ∧
      match str_of e w4 with
      | (Raises e', w5) =>
          exc_is_Exception e' = true → print_keeps_session e' w5
      | _ => True
      end
  | Hangs => True
  end.

(** In this turn, no code from outside the module changes the session:
    not the run of the snippet, if the turn comes to it, and not the
    [__str__] of an exception that a handler of the turn prints. *)
Definition turn_keeps_session (query : string) (w : World) : Prop :=
  match df (session w) with
  | Some frame =>
      match generate_prompt (frame_at (heap w) frame) query with
      | Returns prompt =>
          match generate_content prompt with
          | Returns t =>
              is_snippet (strip t) = true →
              run_keeps_session
                (fst (py_exec (extract_code (strip t)) sandbox_globals
                        (sandbox_locals frame) (before_snippet query (strip t) w)))
                (before_snippet query (strip t) w)
                (snd (py_exec (extract_code (strip t)) sandbox_globals
                        (sandbox_locals frame) (before_snippet query (strip t) w)))
          | _ => True
          end
      | _ => True
      end
  | None => True
  end.


(** What the user did on the page before this run. *)
Record Inputs := mkInputs {
  uploaded_file : option UploadedFile;
  remove_clicked : bool;
  reset_clicked : bool;
  example_clicked : option nat;
  send : bool;
  query : string
}.

Definition examples : list string :=
  [ "What is the average income?";
    "Show number of customers by region.";
    "Give me a bar chart of sales per category.";
    "Compare male vs female loan approval rates." ].

(** A fresh reference for a frame that enters the heap. *)
Definition store_frame (d : DataFrame) : M loc :=
  h ← get_heap;
  let l := fresh (dom h) in
  put_heap (<[ l := d ]> h);;
  ret l.

(** Lines 126-133: the branch of [main] taken while no dataset is
    stored. *)
Definition upload_branch (i : Inputs) : M unit :=
  match uploaded_file i with
  | Some f =>
      r ← process_excel_file f;
      match r with
      | Some d =>
          l ← store_frame d;
          modify_session (set_df (Some l));;
          modify_session (set_uploaded_filename (Some (file_name f)));;
          st (StSuccess "File uploaded successfully!");;
          st_rerun
      | None => ret tt
      end
  | None => ret tt
  end.

(** Lines 143-145 and 148-150: every key of the session is deleted; the
    next run starts from the keys of lines 18-29. *)
Definition clear_session : M unit :=
  put_session init_session;;
  st_rerun.

(** Lines 152-153: the preview of the stored frame, a display call outside
    any [try]. *)
Definition preview (frame : loc) : M unit :=
  h ← get_heap;
  let d := df_head (frame_at h frame) in
  match preview_fault d with
  | Some e => raise e
  | None => st (StPreview d)
  end.

(** Lines 184-203 *)
Definition submit_form (i : Inputs) : M unit :=
  if send i && truthy (query i) then answer_query (query i)
  else ret tt.

(** Lines 205-226 *)
Definition submit_example : M unit :=
  s ← get_session;
  match example_query s with
  | Some q =>
      if truthy q then
        modify_session (set_example_query None);;
        answer_query q
      else ret tt
  | None => ret tt
  end.

(** Lines 135-226: the branch of [main] taken once a dataset is stored
    (titles, expanders and the transcript display, which draw fixed text or
    the texts of the log, are left out). *)
Definition chat_branch (frame : loc) (i : Inputs) : M unit :=
  (if remove_clicked i then clear_session else ret tt);;
  (if reset_clicked i then clear_session else ret tt);;
  preview frame;;
  match example_clicked i with
  | Some n =>
      match examples !! n with
      | Some ex => modify_session (set_example_query (Some ex));; st_rerun
      | None => ret tt
      end
  | None => ret tt
  end;;
  submit_form i;;
  submit_example.

(** [main] *)
Definition main (i : Inputs) : M unit :=
  s ← get_session;
  match df s with
  | None => upload_branch i
  | Some frame => chat_branch frame i
  end.

End App.

(** ** Views of the functions, for the statements about them *)

(** A text of white space only. *)
Fixpoint all_space (s : string) : bool :=
  match s with
  | EmptyString => true
  | String c s' => PyStr.is_space c && all_space s'
  end.

(** A text without line boundary. *)
Fixpoint no_break (s : string) : bool :=
  match s with
  | EmptyString => true
  | String c s' => negb (PyStr.is_linebreak c) && no_break s'
  end.


(** The world with [ex] noted as the example to ask (line 168). *)
Definition example_noted (ex : string) (w : World) : World :=
  with_session (set_example_query (Some ex) (session w)) w.

(** The log of the second world continues the log of the first. *)
Definition log_extends (w w' : World) : Prop :=
  ∃ added,
    chat_history (session w') = chat_history (session w) ++ added.


Section Views.

Context `{RT : Runtime}.
Import PyStr.

(** The world with the preview of the stored frame drawn (line 153). *)
Definition previewed (frame : loc) (w : World) : World :=
  drawn (StPreview (df_head (frame_at (heap w) frame))) w.



(** The fixed head of the prompt, up to the line that opens the column
    list. *)
Definition prompt_head : string :=
  join nl
    [ "You are an intelligent Excel data analyst. You are working with a pandas DataFrame named `df` and answering user questions about its content.";
      "";
      "Your behavior:";
      "1. If the question is factual, return the **answer in plain English**.";
      "2. If it needs calculations/statistics/visuals, return **Python code only** using `pandas` and/or `plotly.express` with variable named `result`.";
      "";
      "Rules:";
      "- Do NOT import anything.";
      "- Do NOT print or explain.";
      "- Do NOT load files.";
      "- Only output either a Python code block or a plain text answer.";
      "";
      "DataFrame structure:";
      "" ].

End Views.

(** ** A concrete runtime

    Runs of a few snippets as CPython 3 with pandas performs them under
    [execute_code]'s dictionaries, inside the process of the script, for
    the examples below.  The table is not an interpreter: no statement is
    made about a text outside it. *)

Module Demo.
Import PyStr.

(** Reads the row count: leaves the frame alone. *)
Definition snippet_count : string := "result = df.shape[0]".

(** Drops the first row of [df] in place, then reads the row count. *)
Definition snippet_drop : string :=
  "df.drop(df.index[0], inplace=True)" +:+ nl +:+ "result = df.shape[0]".

(** Binds [result], then reaches [BaseException] through the class of a
    tuple, without any built-in name, and raises it. *)
Definition snippet_raise_base : string :=
  "result = 0" +:+ nl +:+
  "raise [c for c in ().__class__.__base__.__subclasses__() if c.__name__ == 'BaseException'][0]()".

(** Reaches [Exception] and [type] the same way, derives a class whose
    [__str__] raises, and raises an instance of it. *)
Definition snippet_raise_mute : string :=
  "result = 0" +:+ nl +:+
  "B = [c for c in ().__class__.__base__.__subclasses__() if c.__name__ == 'BaseException'][0]" +:+ nl +:+
  "E = [c for c in B.__subclasses__() if c.__name__ == 'Exception'][0]" +:+ nl +:+
  "raise ().__class__.__class__('Mute', (E,), {'__str__': lambda self: ()[0]})()".

(** Reaches the session through the modules [pd] has loaded and empties
    the log. *)
Definition snippet_clear_log : string :=
  "pd.io.common.os.sys.modules['streamlit'].session_state.chat_history.clear()"
  +:+ nl +:+ "result = 1".

(** Empties the log the same way, then calls a built-in that is gone. *)
Definition snippet_clear_then_fail : string :=
  "pd.io.common.os.sys.modules['streamlit'].session_state.chat_history.clear()"
  +:+ nl +:+ "result = open('data.csv').read()".

(** Raises an instance of a class derived from [Exception] whose [__str__]
    empties the log of the session before it returns a text. *)
Definition snippet_raise_wiper : string :=
  "result = 0" +:+ nl +:+
  "B = [c for c in ().__class__.__base__.__subclasses__() if c.__name__ == 'BaseException'][0]" +:+ nl +:+
  "E = [c for c in B.__subclasses__() if c.__name__ == 'Exception'][0]" +:+ nl +:+
  "S = pd.io.common.os.sys.modules['streamlit'].session_state" +:+ nl +:+
  "raise ().__class__.__class__('Wiper', (E,), {'__str__': lambda self, S=S: S.chat_history.clear() or 'gone'})()".

(** Never ends. *)
Definition snippet_loop : string :=
  "result = 0" +:+ nl +:+ "while True: pass".

(** Calls a built-in that the empty [__builtins__] no longer has. *)
Definition snippet_open : string := "result = open('data.csv').read()".

Definition snippet_from_import : string :=
  "from os import system" +:+ nl +:+ "result = 1".

Definition snippet_one : string := "result = 1".
Definition snippet_no_result : string := "x = 1".

Definition drop_first_row (d : DataFrame) : DataFrame :=
  mkFrame (df_columns d) (tail (df_rows d)).

(** A library exception of the [Exception] hierarchy with message
    [msg], and the same as an interpreter raises it in a snippet. *)
Definition error (cls msg : string) : LibError := mkError true cls msg.
Definition raised (cls msg : string) : PyExc := of_library (error cls msg).

Definition base_exception : PyExc := mkExc false "BaseException" (ret "").

(** What the [__str__] of the class built by [snippet_raise_mute]
    raises. *)
Definition index_error : PyExc := raised "IndexError" "tuple index out of range".
Definition mute : PyExc := mkExc true "Mute" (raise index_error).

Definition name_error : PyExc := raised "NameError" "name 'open' is not defined".

(** The world with the log of the session emptied. *)
Definition log_cleared (w : World) : World :=
  with_session (set_chat_history [] (session w)) w.

(** The exception of [snippet_raise_wiper]: printing it empties the log
    and gives "gone". *)
Definition wiper : PyExc :=
  mkExc true "Wiper" (fun w => (Returns "gone", log_cleared w)).

Definition run_snippet (code : string)
    (globals locals : gmap string PyValue) (w : World)
  : Outcome (gmap string PyValue) * World :=
  if String.eqb code snippet_count then
    match locals !! "df" with
    | Some (VFrame l) =>
        (Returns (<[ "result" := VInt (len_rows (frame_at (heap w) l)) ]> locals), w)
    | _ => (Raises (raised "NameError" "name 'df' is not defined"), w)
    end
  else if String.eqb code snippet_drop then
    match locals !! "df" with
    | Some (VFrame l) =>
        match df_rows (frame_at (heap w) l) with
        | [] => (Raises (raised "IndexError"
                   "index 0 is out of bounds for axis 0 with size 0"), w)
        | _ :: _ =>
            let d' := drop_first_row (frame_at (heap w) l) in
            (Returns (<[ "result" := VInt (len_rows d') ]> locals),
             with_heap (<[ l := d' ]> (heap w)) w)
        end
    | _ => (Raises (raised "NameError" "name 'df' is not defined"), w)
    end
  else if String.eqb code snippet_open then (Raises name_error, w)
  else if String.eqb code snippet_from_import then
    (Raises (raised "ImportError" "__import__ not found"), w)
  else if String.eqb code snippet_one then
    (Returns (<[ "result" := VInt 1 ]> locals), w)
  else if String.eqb code snippet_no_result then
    (Returns (<[ "x" := VInt 1 ]> locals), w)
  else if String.eqb code snippet_raise_base then (Raises base_exception, w)
  else if String.eqb code snippet_raise_mute then (Raises mute, w)
  else if String.eqb code snippet_clear_log then
    (Returns (<[ "result" := VInt 1 ]> locals), log_cleared w)
  else if String.eqb code snippet_clear_then_fail then
    (Raises name_error, log_cleared w)
  else if String.eqb code snippet_raise_wiper then (Raises wiper, w)
  else if String.eqb code snippet_loop then (Hangs, w)
  else
    (Raises (raised "SyntaxError" "invalid syntax (<string>, line 1)"), w).

Definition text_of (h : gmap loc DataFrame) (v : PyValue) : string :=
  match v with
  | VInt z => NilEmpty.string_of_int (Z.to_int z)
  | VStr s => s
  | VNone => "None"
  | VBool true => "True"
  | VBool false => "False"
  | VFloat r => r
  | _ => "<object>"
  end.

(** How often a label occurs among the columns. *)
Definition occurrences (col : string) (d : DataFrame) : nat :=
  length (List.filter (String.eqb col) (df_columns d)).

(** The position of a label among the columns. *)
Fixpoint position (col : string) (cols : list string) : nat :=
  match cols with
  | [] => 0
  | c :: rest => if String.eqb col c then 0 else S (position col rest)
  end.

(** The cells of a column, from the first row down. *)
Definition column_cells (d : DataFrame) (col : string) : list Cell :=
  map (fun row => nth (position col (df_columns d)) row CMissing) (df_rows d).

Definition is_num (c : Cell) : bool :=
  match c with CNum _ => true | _ => false end.
Definition is_missing (c : Cell) : bool :=
  match c with CMissing => true | _ => false end.

(** With a label that occurs twice, [df[col]] is a frame and has no
    [dtype]; otherwise the type pandas infers for whole numbers, for
    whole numbers with gaps, and for the rest. *)
Definition dtype_of (d : DataFrame) (col : string)
  : OutcomeOf LibError string :=
  if (1 <? occurrences col d)%nat
  then Raises (error "AttributeError" "'DataFrame' object has no attribute 'dtype'")
  else
    let cells := column_cells d col in
    if forallb is_num cells then Returns "int64"
    else if forallb (fun c => is_num c || is_missing c) cells then Returns "float64"
    else Returns "object".

(** A cell as [repr] prints it inside a list (texts without quote or
    escape); a number of a column with gaps is a float. *)
Definition cell_repr (gaps : bool) (c : Cell) : string :=
  match c with
  | CNum z =>
      NilEmpty.string_of_int (Z.to_int z) +:+ (if gaps then ".0" else "")
  | CText s => "'" +:+ s +:+ "'"
  | CMissing => "nan"
  end.

(** The first two cells that are not missing, as a printed list. *)
Definition sample_of (d : DataFrame) (col : string)
  : OutcomeOf LibError string :=
  let cells := column_cells d col in
  let gaps := existsb is_missing cells && forallb (fun c => is_num c || is_missing c) cells in
  Returns ("[" +:+ join ", " (map (cell_repr gaps)
                                (firstn 2 (List.filter (fun c => negb (is_missing c)) cells)))
           +:+ "]").

(** A runtime whose completion service answers [completion] to every
    prompt, whose spreadsheet reader yields [sheet] for every file, and
    whose display calls end as [shown] and [previewed] say. *)
Definition runtime_with (completion : OutcomeOf LibError string)
    (sheet : OutcomeOf LibError DataFrame)
    (shown previewed : option PyExc) : Runtime :=
  {| py_exec := run_snippet;
     py_str := text_of;
     generate_content := fun _ => completion;
     read_excel := fun _ => sheet;
     dtype_text := dtype_of;
     sample_text := sample_of;
     to_csv := fun _ _ => "";
     display_fault := fun _ _ => shown;
     preview_fault := fun _ => previewed |}.

Definition runtime (completion : OutcomeOf LibError string)
    (sheet : OutcomeOf LibError DataFrame)
  : Runtime := runtime_with completion sheet None None.

(** A fenced python block around [code]. *)
Definition fenced (code : string) : string :=
  "```python" +:+ nl +:+ code +:+ nl +:+ "```".

Definition sales : DataFrame :=
  mkFrame ["region"; "sales"]
          [ [CText "north"; CNum 10]; [CText "south"; CNum 20];
            [CText "east"; CNum 30] ].

(** A frame in which two columns have the same label (the reader renames
    such columns; a snippet can give [df] these labels in place). *)
Definition twins : DataFrame :=
  mkFrame ["sales"; "sales"] [ [CNum 10; CNum 11]; [CNum 20; CNum 21] ].

(** A frame of [n] rows and [m] columns. *)
Definition frame_of_size (n m : nat) : DataFrame :=
  mkFrame (repeat "c" m) (repeat (repeat (CNum 0) m) n).

(** A session with [sales] stored at reference 1 and an empty log. *)
Definition loaded : World :=
  mkWorld {[ 1%positive := sales ]} (set_df (Some 1%positive) init_session) [] 0%N.


Definition blank : World := mkWorld ∅ init_session [] 0%N.

Definition workbook : UploadedFile := mkUpload "book.xlsx" "".

(** The runtime that answers [completion] and reads [sales]. *)
Definition rt (completion : string) : Runtime :=
  runtime (Returns completion) (Returns sales).

(** The inputs of the runs below. *)
Definition big_sheet : DataFrame := frame_of_size 501 3.
Definition upload_click : Inputs :=
  mkInputs (Some workbook) false false None false "".
Definition corrected_body : string := nl +:+ "result = df.shape[0]" +:+ nl.
Definition prose_then_block : string :=
  "The result = the mean of each column." +:+ nl +:+ fenced "result=df.mean()".

(** A completion whose second block has a plain fence. *)
Definition two_blocks : string :=
  fenced "result = 1" +:+ nl +:+ "Output:" +:+ nl +:+
  "```" +:+ nl +:+ "1" +:+ nl +:+ "```".

(** The preview of [sales]. *)
Definition sales_preview : Widget := StPreview sales.

End Demo.

(** More runs on concrete runtimes. *)

Module Cases.
Import PyStr Demo.

(** A run of the script in which the user did nothing. *)
Definition idle : Inputs := mkInputs None false false None false "".

Definition remove_click : Inputs := mkInputs None true false None true "lost?".

Definition arrow_error : PyExc :=
  raised "ArrowInvalid" "Could not convert column to Arrow".
Definition quota_error : LibError :=
  error "ResourceExhausted" "429 quota exceeded".
Definition format_error : LibError :=
  error "ValueError" "Excel file format cannot be determined".


(** The runtime of [Demo.rt] with the preview failing. *)
Definition rt_preview_fails (completion : string) : Runtime :=
  runtime_with (Returns completion) (Returns sales) None (Some arrow_error).

(** A frame at the two bounds. *)
Definition full_sheet : DataFrame := frame_of_size 500 20.


Definition blank_completion : string := "  " +:+ nl.
Definition unclosed_pre : string := "Here you go: result = count" +:+ nl.
Definition unclosed_rest : string := nl +:+ "result = df.shape[0]".

(** The column lines of [Demo.sales]. *)
Definition sales_lines : list string :=
  [ "- region (type: object, sample: ['north', 'south'])";
    "- sales (type: int64, sample: [10, 20])" ].

End Cases.
(** ** Facts about the text operations *)

Module PyStrFacts.
Import PyStr.

#[local] Arguments String.append !_ _ / : simpl nomatch.
#[local] Arguments Ascii.eqb : simpl never.

Example splitlines_crlf :
  splitlines ("a" +:+ String (chr 13) nl +:+ nl +:+ "b" +:+ nl) = ["a"; ""; "b"].
Proof. reflexivity. Qed.

Example split_two_fences :
  split python_fence "x```python a ``` b ```python c ``` d"
    = ["x"; " a ``` b "; " c ``` d"].
Proof. reflexivity. Qed.

Example split_overlapping : split "aa" "aaab" = [""; "ab"].
Proof. reflexivity. Qed.

Example strip_both_ends : strip ("  a b " +:+ nl) = "a b".
Proof. reflexivity. Qed.

Lemma length_app (a b : string) :
  String.length (a +:+ b) = (String.length a + String.length b)%nat.
Proof. induction a as [|c a IH]; simpl; [reflexivity | now rewrite IH]. Qed.

Lemma app_assoc (a b c : string) : (a +:+ b) +:+ c = a +:+ b +:+ c.
Proof. induction a as [|x a IH]; simpl; [reflexivity | now rewrite IH]. Qed.

Lemma startswith_app (p s : string) : startswith p (p +:+ s) = true.
Proof.
  induction p as [|c p IH]; simpl; [reflexivity |].
  now rewrite Ascii.eqb_refl, IH.
Qed.

Lemma drop_app (p s : string) : drop (String.length p) (p +:+ s) = s.
Proof. induction p as [|c p IH]; simpl; [now destruct s | exact IH]. Qed.

Lemma drop_app_le (n : nat) (a b : string) :
  (n <= String.length a)%nat → drop n (a +:+ b) = drop n a +:+ b.
Proof.
  revert a; induction n as [|n IH]; intros a Hn; [reflexivity |].
  destruct a as [|c a]; simpl in *; [lia |]. apply IH; lia.
Qed.

Lemma length_drop (n : nat) (a : string) :
  String.length (drop n a) = (String.length a - n)%nat.
Proof.
  revert a; induction n as [|n IH]; intros a; simpl; [lia |].
  destruct a as [|c a]; simpl; [reflexivity | apply IH].
Qed.

Lemma startswith_split (p s : string) :
  startswith p s = true → s = p +:+ drop (String.length p) s.
Proof.
  revert s; induction p as [|c p IH]; intros s H; simpl in *.
  - now destruct s.
  - destruct s as [|b s]; [discriminate |].
    apply andb_prop in H as [Hc Hp].
    apply Ascii.eqb_eq in Hc; subst b. f_equal. now apply IH.
Qed.

(** One step of [partition], without unfolding the test on [sep]. *)
Lemma partition_step (sep s : string) :
  partition sep s =
    if startswith sep s then Some (EmptyString, drop (String.length sep) s)
    else match s with
         | EmptyString => None
         | String c s' =>
             match partition sep s' with
             | Some (a, b) => Some (String c a, b)
             | None => None
             end
         end.
Proof. destruct s; reflexivity. Qed.

(** [partition] cuts the text where it says. *)
Lemma partition_spec (sep s a b : string) :
  partition sep s = Some (a, b) → s = a +:+ sep +:+ b.
Proof.
  revert a b; induction s as [|c s IH]; intros a b H;
    rewrite partition_step in H.
  - destruct (startswith sep "") eqn:E; [| discriminate].
    injection H as <- <-. now apply startswith_split.
  - destruct (startswith sep (String c s)) eqn:E.
    + injection H as <- <-. now apply startswith_split.
    + destruct (partition sep s) as [[a' b'] |]; [| discriminate].
      injection H as <- <-. simpl. f_equal. now apply IH.
Qed.

Lemma partition_none (sep s : string) :
  contains sep s = false → partition sep s = None.
Proof.
  induction s as [|c s IH]; intros H; rewrite partition_step;
    simpl in H; apply orb_false_elim in H as [H1 H2]; rewrite H1.
  - reflexivity.
  - now rewrite (IH H2).
Qed.

(** With a non-empty separator every cut shortens the text, so the rounds
    [split] allows are never used up. *)
Lemma partition_shorter (sep s a b : string) :
  sep ≠ EmptyString → partition sep s = Some (a, b) →
  (String.length b < String.length s)%nat.
Proof.
  intros Hsep H. apply partition_spec in H. subst s.
  rewrite !length_app. destruct sep; [congruence | simpl; lia].
Qed.

Lemma split_rounds_enough (sep : string) (n : nat) (s : string) :
  sep ≠ EmptyString → (String.length s < n)%nat →
  split_rounds n sep s = split sep s.
Proof.
  intros Hsep. unfold split.
  assert (G : ∀ m k t, (String.length t < m)%nat → (String.length t < k)%nat →
                       split_rounds m sep t = split_rounds k sep t).
  { induction m as [|m IH]; intros k t Hm Hk; [lia |].
    destruct k as [|k]; [lia |]. simpl.
    destruct (partition sep t) as [[a b] |] eqn:E; [| reflexivity].
    f_equal. pose proof (partition_shorter _ _ _ _ Hsep E).
    apply IH; lia. }
  intros Hn. apply G; lia.
Qed.

Lemma split_rounds_S (n : nat) (sep s : string) :
  split_rounds (S n) sep s =
    match partition sep s with
    | None => [s]
    | Some (a, b) => a :: split_rounds n sep b
    end.
Proof. reflexivity. Qed.

Lemma split_rounds_nonempty (n : nat) (sep s : string) :
  split_rounds n sep s ≠ [].
Proof.
  destruct n; simpl; [discriminate |].
  destruct (partition sep s) as [[a b] |]; discriminate.
Qed.

Lemma last_item_cons (a : string) (l : list string) :
  l ≠ [] → last_item (a :: l) = last_item l.
Proof. unfold last_item. destruct l; [congruence | reflexivity]. Qed.

(** *** The two markers of line 195 *)

Ltac split_tests :=
  repeat match goal with
    | H : (_ && _)%bool = true |- _ => apply andb_prop in H; destruct H
    | H : Ascii.eqb _ _ = true |- _ => apply Ascii.eqb_eq in H; try subst
    end.

Ltac peel p H n :=
  lazymatch n with
  | O => right; simpl; lia
  | S ?m =>
      destruct p as [|? p];
      [ first [ now left
              | exfalso; unfold python_fence in H; simpl in H;
                split_tests; discriminate ]
      | peel p H m ]
  end.

(** No occurrence of the python marker overlaps another one: an occurrence
    that starts inside a prefix [p] of fewer than nine characters cannot
    reach into the marker that follows [p]. *)
Lemma python_fence_no_overlap (p rest : string) :
  startswith python_fence (p +:+ python_fence +:+ rest) = true →
  p = EmptyString ∨ (9 <= String.length p)%nat.
Proof.
  intros H. peel p H 9%nat.
Qed.

(** The first cut of a text that holds the python marker after [pre]:
    either at that marker, or at an earlier one that lies within [pre]. *)
Lemma partition_python_fence (pre rest : string) :
  ∃ a b,
    partition python_fence (pre +:+ python_fence +:+ rest) = Some (a, b) ∧
    ((a = pre ∧ b = rest) ∨
     ∃ pre', b = pre' +:+ python_fence +:+ rest ∧
             (String.length pre' < String.length pre)%nat).
Proof.
  induction pre as [|c pre IH].
  - exists EmptyString, rest. split; [| now left].
    rewrite partition_step.
    change (EmptyString +:+ python_fence +:+ rest) with (python_fence +:+ rest).
    now rewrite startswith_app, drop_app.
  - rewrite partition_step.
    destruct (startswith python_fence (String c pre +:+ python_fence +:+ rest))
      eqn:E.
    + apply python_fence_no_overlap in E as [E | E]; [discriminate |].
      eexists _, _. split; [reflexivity |]. right.
      exists (drop 9 (String c pre)). split.
      * now apply drop_app_le.
      * rewrite length_drop. simpl in *. lia.
    + destruct IH as (a & b & Hp & Hcase).
      change (String c pre +:+ python_fence +:+ rest)
        with (String c (pre +:+ python_fence +:+ rest)).
      cbv beta iota. rewrite Hp. eexists _, _. split; [reflexivity |].
      destruct Hcase as [[-> ->] | (pre' & -> & Hlen)]; [now left | right].
      exists pre'. split; [reflexivity | simpl; lia].
Qed.

(** [split("```python")[-1]]: the text after the last python marker. *)
Lemma split_rounds_python_last (n : nat) (pre rest : string) :
  contains python_fence rest = false →
  (String.length pre < n)%nat →
  last_item (split_rounds n python_fence (pre +:+ python_fence +:+ rest)) = rest.
Proof.
  intros Hrest. revert pre.
  induction n as [|n IH]; intros pre Hn; [lia |].
  rewrite split_rounds_S.
  destruct (partition_python_fence pre rest)
    as (a & b & -> & [[-> ->] | (pre' & -> & Hlen)]).
  - destruct n; [reflexivity |].
    now rewrite split_rounds_S, (partition_none _ _ Hrest).
  - rewrite last_item_cons by apply split_rounds_nonempty.
    apply IH. lia.
Qed.

Lemma split_python_last (pre rest : string) :
  contains python_fence rest = false →
  last_item (split python_fence (pre +:+ python_fence +:+ rest)) = rest.
Proof.
  intros H. unfold split. apply split_rounds_python_last; [exact H |].
  rewrite length_app. lia.
Qed.

(** [split("```")[0]]: the text before the first fence.  A body that ends
    in a backquote would lend it to the fence, hence the second condition. *)
Lemma partition_fence_first (body post : string) :
  contains fence body = false →
  endswith "`" body = false →
  partition fence (body +:+ fence +:+ post) = Some (body, post).
Proof.
  induction body as [|c body IH]; intros Hc He.
  - reflexivity.
  - simpl in Hc. apply orb_false_elim in Hc as [Hc1 Hc2].
    simpl in He. apply orb_false_elim in He as [He1 He2].
    rewrite partition_step.
    assert (Hs : startswith fence (String c body +:+ fence +:+ post) = false).
    { clear IH Hc2.
      destruct body as [|c2 [|c3 body]]; unfold fence in *; simpl in *.
      - destruct (Ascii.eqb_spec "`" c); [discriminate He1 | reflexivity].
      - destruct (Ascii.eqb_spec "`" c); [| reflexivity].
        destruct (Ascii.eqb_spec "`" c2); [| reflexivity].
        simpl in He2. discriminate He2.
      - exact Hc1. }
    rewrite Hs.
    change (String c body +:+ fence +:+ post)
      with (String c (body +:+ fence +:+ post)).
    cbv beta iota. now rewrite (IH Hc2 He2).
Qed.

Lemma split_fence_first (body post : string) :
  contains fence body = false →
  endswith "`" body = false →
  first_item (split fence (body +:+ fence +:+ post)) = body.
Proof.
  intros Hc He. unfold split.
  now rewrite split_rounds_S, (partition_fence_first _ _ Hc He).
Qed.

End PyStrFacts.

(** ** How the functions run *)

Section Runs.

Context `{RT : Runtime}.
Import PyStr.

Lemma append_turn_run (who : Sender) (t : string) (w : World) :
  append_turn who t w = (Returns tt, logged (mkTurn who t) w).
Proof. reflexivity. Qed.

Lemma print_then {A} (e : PyExc) (k : string → M A) (w : World) :
  (msg ← str_of e; k msg) w =
    match str_of e w with
    | (Returns msg, w') => k msg w'
    | (Raises e', w') => (Raises e', w')
    | (Hangs, w') => (Hangs, w')
    end.
Proof. reflexivity. Qed.


Lemma ask_gemini_run (prompt : string) (w : World) :
  ask_gemini prompt w =
    match generate_content prompt with
    | Returns t => (Returns (strip t), w)
    | Raises e =>
        if err_is_Exception e
        then (Returns "", drawn (StError ("Gemini Flash error: " +:+ err_text e)) w)
        else (Raises (of_library e), w)
    | Hangs => (Hangs, w)
    end.
Proof.
  unfold ask_gemini, try_except. unfold mbind at 1, M_bind at 1, bind at 1, call.
  destruct (generate_content prompt) as [t | e |]; [reflexivity | | reflexivity].
  cbn [exc_is_Exception of_library]. destruct (err_is_Exception e); reflexivity.
Qed.

Lemma execute_code_run (code : string) (frame : loc) (w : World) :
  execute_code code frame w =
    match py_exec code sandbox_globals (sandbox_locals frame) w with
    | (Returns local_vars, w') =>
        (Returns (default VNone (local_vars !! "result")), w')
    | (Raises e, w') =>
        if exc_is_Exception e
        then match str_of e w' with
             | (Returns msg, w'') =>
                 (Returns VNone,
                  drawn (StError ("Code execution failed: " +:+ msg)) w'')
             | (Raises e', w'') => (Raises e', w'')
             | (Hangs, w'') => (Hangs, w'')
             end
        else (Raises e, w')
    | (Hangs, w') => (Hangs, w')
    end.
Proof.
  unfold execute_code, try_except. unfold mbind at 1, M_bind at 1, bind at 1, exec.
  destruct (py_exec code sandbox_globals (sandbox_locals frame) w)
    as [[env | e |] w']; [reflexivity | | reflexivity].
  destruct (exc_is_Exception e); [| reflexivity].
  rewrite print_then. destruct (str_of e w') as [[msg | e' |] w'']; reflexivity.
Qed.

Lemma show_run (v : PyValue) (x : Widget) (w : World) :
  show v x w =
    match display_fault (heap w) v with
    | Some e => (Raises e, w)
    | None => (Returns tt, drawn x w)
    end.
Proof.
  unfold show, mbind, M_bind, bind, get_heap.
  destruct (display_fault (heap w) v); reflexivity.
Qed.

Lemma drawn_all_nil (w : World) : drawn_all [] w = w.
Proof. destruct w. unfold drawn_all. cbn. now rewrite app_nil_r. Qed.






Lemma answer_query_run (query : string) (w : World) :
  answer_query query w =
    match df (session w) with
    | Some frame =>
        match generate_prompt (frame_at (heap w) frame) query with
        | Returns prompt =>
            match ask_gemini prompt (logged (mkTurn User query) w) with
            | (Returns response, w2) =>
                if is_snippet response
                then run_snippet_block frame response (asked query response w2)
                else (Returns tt,
                      logged (mkTurn Assistant
                                (if truthy response then response
                                 else "No answer returned."))
                             (asked query response w2))
            | (Raises e, w2) => (Raises e, w2)
            | (Hangs, w2) => (Hangs, w2)
            end
        | Raises e => (Raises (of_library e), logged (mkTurn User query) w)
        | Hangs => (Hangs, logged (mkTurn User query) w)
        end
    | None => (Raises (of_library no_frame_error), logged (mkTurn User query) w)
    end.
Proof.
  unfold answer_query, stored_frame, mbind, M_bind, bind.
  rewrite append_turn_run.
  cbn [get_session get_heap logged heap session with_session].
  replace (df (set_chat_history (chat_history (session w) ++ [mkTurn User query])
                 (session w)))
    with (df (session w)) by (destruct (session w); reflexivity).
  destruct (df (session w)) as [frame |]; [| reflexivity].
  unfold ret at 1. cbn [heap]. unfold call.
  destruct (generate_prompt _ _) as [prompt | e |]; [| reflexivity | reflexivity].
  destruct (ask_gemini _ _) as [[response | e |] w2]; [| reflexivity | reflexivity].
  cbn. destruct (is_snippet response); reflexivity.
Qed.

Lemma session_answered (query response reply : string) (s : Session) :
  set_chat_history
    (chat_history
       (set_last_response (Some response)
          (set_last_query (Some query)
             (set_chat_history (chat_history s ++ [mkTurn User query]) s)))
     ++ [mkTurn Assistant reply])
    (set_last_response (Some response)
       (set_last_query (Some query)
          (set_chat_history (chat_history s ++ [mkTurn User query]) s)))
    = answered query response reply s.
Proof.
  destruct s. unfold answered, set_chat_history, set_last_response,
    set_last_query. cbn. now rewrite <- app_assoc.
Qed.



Lemma main_run (i : Inputs) (w : World) :
  main i w =
    match df (session w) with
    | None => upload_branch i w
    | Some frame => chat_branch frame i w
    end.
Proof.
  unfold main, mbind, M_bind, bind. cbn [get_session].
  destruct (df (session w)); reflexivity.
Qed.

Lemma preview_run (frame : loc) (w : World) :
  preview frame w =
    match preview_fault (df_head (frame_at (heap w) frame)) with
    | Some e => (Raises e, w)
    | None => (Returns tt, drawn (StPreview (df_head (frame_at (heap w) frame))) w)
    end.
Proof.
  unfold preview, mbind, M_bind, bind, get_heap. cbv zeta.
  destruct (preview_fault _); reflexivity.
Qed.

Lemma process_excel_file_run (f : UploadedFile) (w : World) :
  process_excel_file f w =
    match read_excel f with
    | Returns d =>
        if len_rows d >? MAX_ROWS then
          (Returns None,
           drawn (StError ("Too many rows. Max allowed: " +:+ str_of_int MAX_ROWS)) w)
        else if len_columns d >? MAX_COLS then
          (Returns None,
           drawn (StError ("Too many columns. Max allowed: " +:+ str_of_int MAX_COLS)) w)
        else (Returns (Some d), w)
    | Raises e =>
        if err_is_Exception e
        then (Returns None,
              drawn (StError ("Error processing Excel file: " +:+ err_text e)) w)
        else (Raises (of_library e), w)
    | Hangs => (Hangs, w)
    end.
Proof.
  unfold process_excel_file, try_except.
  unfold mbind at 1, M_bind at 1, bind at 1, call.
  destruct (read_excel f) as [d | e |]; [| | reflexivity].
  - destruct (len_rows d >? MAX_ROWS); [reflexivity |].
    destruct (len_columns d >? MAX_COLS); reflexivity.
  - cbn [exc_is_Exception of_library]. destruct (err_is_Exception e); reflexivity.
Qed.

(** The world once the frame [d] of file [f] is stored. *)
Lemma upload_branch_run (i : Inputs) (w : World) :
  upload_branch i w =
    match uploaded_file i with
    | Some f =>
        match process_excel_file f w with
        | (Returns (Some d), w1) =>
            (Raises rerun,
             mkWorld (<[ fresh (dom (heap w1)) := d ]> (heap w1))
                     (set_uploaded_filename (Some (file_name f))
                        (set_df (Some (fresh (dom (heap w1)))) (session w1)))
                     (screen w1 ++ [StSuccess "File uploaded successfully!"])
                     (ambient w1))
        | (Returns None, w1) => (Returns tt, w1)
        | (Raises e, w1) => (Raises e, w1)
        | (Hangs, w1) => (Hangs, w1)
        end
    | None => (Returns tt, w)
    end.
Proof.
  unfold upload_branch. destruct (uploaded_file i) as [f |]; [| reflexivity].
  unfold mbind, M_bind, bind.
  destruct (process_excel_file f w) as [[[d |] | e |] w1]; reflexivity.
Qed.

End Runs.

(** ** The executor *)

Section Executor.

Context `{RT : Runtime}.
Import PyStr.

(** C2. The snippet runs with exactly three local names, [df] (the stored
    frame itself), [pd] and [px], and with one global, an empty
    [__builtins__]; of the bindings the snippet leaves, [execute_code]
    reads [result] and nothing else. *)
Theorem execute_code_context (code : string) (frame : loc) (w : World) :
  dom (sandbox_locals frame) = ({[ "df"; "pd"; "px" ]} : gset string) ∧
  sandbox_locals frame !! "df" = Some (VFrame frame) ∧
  sandbox_locals frame !! "pd" = Some (VModule "pandas") ∧
  sandbox_locals frame !! "px" = Some (VModule "plotly.express") ∧
  dom sandbox_globals = ({[ "__builtins__" ]} : gset string) ∧
  sandbox_globals !! "__builtins__" = Some (VDict []) ∧
  execute_code code frame w =
    match py_exec code sandbox_globals (sandbox_locals frame) w with
    | (Returns local_vars, w') =>
        (Returns (default VNone (local_vars !! "result")), w')
    | (Raises e, w') =>
        if exc_is_Exception e
        then match str_of e w' with
             | (Returns msg, w'') =>
                 (Returns VNone,
                  drawn (StError ("Code execution failed: " +:+ msg)) w'')
             | (Raises e', w'') => (Raises e', w'')
             | (Hangs, w'') => (Hangs, w'')
             end
        else (Raises e, w')
    | (Hangs, w') => (Hangs, w')
    end.
Proof.
  repeat split; try reflexivity. apply execute_code_run.
Qed.



End Executor.

(** ** The renderer *)

Section Renderer.

Context `{RT : Runtime}.

(** C5, as amended.  A result that is not [None], not a frame, not a
    figure and not of a plain type gets the warning and the fixed
    unknown-format text; [None] (no [result] bound, or a failed run) gets
    no widget at all and the text "No result to display.". *)
Theorem format_result_unknown (result : PyValue) (w : World) :
  result ≠ VNone →
  isinstance_DataFrame result = false →
  isinstance_Figure result = false →
  isinstance_plain result = false →
  format_result result w =
    (Returns "Assistant returned an unknown format.",
     drawn (StWarning "Assistant returned an unknown format.") w) ∧
  format_result VNone w = (Returns "No result to display.", w).
Proof.
  intros Hn Hd Hf Hp. split; [| reflexivity].
  destruct result; try congruence; try discriminate; reflexivity.
Qed.

End Renderer.
(** ** The classifier *)

Section Classifier.

Import PyStr PyStrFacts.

#[local] Arguments String.append !_ _ / : simpl nomatch.

(** Line 196 keeps no line whose stripped text starts with [import], and
    keeps every other line. *)
Lemma drop_import_lines_kept (raw_code line : string) :
  In line (List.filter (fun l => negb (startswith "import" (strip l)))
                       (splitlines raw_code)) ↔
  In line (splitlines raw_code) ∧ startswith "import" (strip line) = false.
Proof. now rewrite filter_In, negb_true_iff. Qed.

(** C4, as amended.  In a completion with two python-fenced blocks, where
    the second body holds no fence and does not end in a backquote and no
    python marker follows it, line 195 yields the second body, stripped,
    and line 196 works on that. *)
Theorem extract_last_python_block (pre b1 mid b2 post : string) :
  contains fence b2 = false →
  endswith "`" b2 = false →
  contains python_fence (b2 +:+ fence +:+ post) = false →
  raw_code_of (two_python_blocks pre b1 mid b2 post) = strip b2 ∧
  extract_code (two_python_blocks pre b1 mid b2 post)
    = drop_import_lines (strip b2).
Proof.
  intros Hb He Hp.
  assert (Hr : raw_code_of (two_python_blocks pre b1 mid b2 post) = strip b2).
  { unfold raw_code_of, two_python_blocks.
    replace (pre +:+ python_fence +:+ b1 +:+ fence +:+ mid +:+
             python_fence +:+ b2 +:+ fence +:+ post)
      with ((pre +:+ python_fence +:+ b1 +:+ fence +:+ mid) +:+
            python_fence +:+ b2 +:+ fence +:+ post)
      by now rewrite !app_assoc.
    rewrite (split_python_last _ _ Hp).
    now rewrite (split_fence_first _ _ Hb He). }
  split; [exact Hr |]. unfold extract_code. now rewrite Hr.
Qed.

End Classifier.

(** ** One query *)

Section Turns.

Context `{RT : Runtime}.
Import PyStr.








(** C9, as amended.  A completion is sent to the executor only if it holds
    the text "result =" and the marker of a python fence; a completion in
    which "result =" occurs nowhere is logged as the answer (the fixed
    fallback when it is empty), and frames, page and the rest of the
    process stay as they were: no snippet runs. *)
Theorem plain_answer_without_token
    (frame : loc) (query : string) (w : World) (prompt t : string) :
  df (session w) = Some frame →
  generate_prompt (frame_at (heap w) frame) query = Returns prompt →
  generate_content prompt = Returns t →
  contains result_token (strip t) = false →
  (∀ r, is_snippet r = true →
        r ≠ "" ∧ contains result_token r = true ∧ contains python_fence r = true) ∧
  is_snippet (strip t) = false ∧
  answer_query query w =
    (Returns tt,
     mkWorld (heap w)
       (answered query (strip t)
          (if truthy (strip t) then strip t else "No answer returned.")
          (session w))
       (screen w) (ambient w)).
Proof.
  intros Hd Hp Hg Hc.
  assert (Hs : is_snippet (strip t) = false).
  { unfold is_snippet. rewrite Hc. now rewrite andb_false_r. }
  split; [| split; [exact Hs |]].
  - intros r Hr. unfold is_snippet in Hr.
    apply andb_prop in Hr as [Hr Hf]. apply andb_prop in Hr as [Hr Ht].
    repeat split; try assumption. now destruct r.
  - rewrite answer_query_run, Hd, Hp, ask_gemini_run, Hg, Hs.
    unfold logged, asked, with_session. cbn [heap session screen ambient].
    now rewrite session_answered.
Qed.

(** *** The log stays paired *)






Lemma submit_example_none (w : World) :
  example_query (session w) = None →
  submit_example w = (Returns tt, w).
Proof.
  intros He. unfold submit_example, mbind, M_bind, bind.
  cbn [get_session]. now rewrite He.
Qed.

Lemma chat_branch_run (frame : loc) (i : Inputs) (w : World) :
  remove_clicked i = false → reset_clicked i = false →
  chat_branch frame i w =
    match preview_fault (df_head (frame_at (heap w) frame)) with
    | Some e => (Raises e, w)
    | None =>
        match example_clicked i with
        | Some n =>
            match examples !! n with
            | Some ex => (Raises rerun, example_noted ex (previewed frame w))
            | None => (submit_form i;; submit_example) (previewed frame w)
            end
        | None => (submit_form i;; submit_example) (previewed frame w)
        end
    end.
Proof.
  intros Hr Hs. unfold chat_branch. rewrite Hr, Hs.
  unfold mbind, M_bind, bind at 1 2 3. unfold ret at 1 2.
  rewrite preview_run. unfold previewed.
  destruct (preview_fault _); [reflexivity |].
  destruct (example_clicked i) as [n |]; [| reflexivity].
  destruct (examples !! n); reflexivity.
Qed.

Lemma queries_idle (i : Inputs) (w : World) :
  send i = false ∨ query i = "" →
  example_query (session w) = None →
  (submit_form i;; submit_example) w = (Returns tt, w).
Proof.
  intros Hq He. unfold mbind, M_bind, bind, submit_form.
  assert (Hf : send i && truthy (query i) = false).
  { destruct Hq as [-> | ->]; [reflexivity | apply andb_false_r]. }
  rewrite Hf. unfold ret at 1. now apply submit_example_none.
Qed.


Lemma upload_branch_keeps_log (i : Inputs) (w : World) :
  chat_history (session (snd (upload_branch i w))) = chat_history (session w).
Proof.
  rewrite upload_branch_run. destruct (uploaded_file i) as [f |]; [| reflexivity].
  rewrite process_excel_file_run.
  destruct (read_excel f) as [d | e |]; [| | reflexivity].
  - destruct (len_rows d >? MAX_ROWS); [reflexivity |].
    destruct (len_columns d >? MAX_COLS); reflexivity.
  - destruct (err_is_Exception e); reflexivity.
Qed.

(** C8.  A workbook of more than 500 rows or more than 20 columns is
    refused with the message of the bound it breaks (rows first), and heap
    and session stay as they were; the stored dataset changes only when a
    workbook within both bounds was read, and then to a new frame. *)
Theorem oversize_upload_rejected
    (f : UploadedFile) (d : DataFrame) (i : Inputs) (w : World) :
  uploaded_file i = Some f →
  read_excel f = Returns d →
  len_rows d > MAX_ROWS ∨ len_columns d > MAX_COLS →
  process_excel_file f w = (Returns None, drawn (StError (size_error d)) w) ∧
  (df (session w) = None →
   main i w = (Returns tt, drawn (StError (size_error d)) w)) ∧
  ∀ i' w0,
    df (session (snd (upload_branch i' w0))) = df (session w0) ∨
    ∃ f' d' l,
      uploaded_file i' = Some f' ∧ read_excel f' = Returns d' ∧
      len_rows d' <= MAX_ROWS ∧ len_columns d' <= MAX_COLS ∧
      heap w0 !! l = None ∧
      df (session (snd (upload_branch i' w0))) = Some l ∧
      heap (snd (upload_branch i' w0)) !! l = Some d'.
Proof.
  intros Hi Hr Hbig.
  assert (Hp : process_excel_file f w
               = (Returns None, drawn (StError (size_error d)) w)).
  { rewrite process_excel_file_run, Hr. unfold size_error.
    destruct (Z.gtb_spec (len_rows d) MAX_ROWS); [reflexivity |].
    destruct (Z.gtb_spec (len_columns d) MAX_COLS); [reflexivity | lia]. }
  split; [exact Hp |]. split.
  - intros Hd. rewrite main_run, Hd. now rewrite upload_branch_run, Hi, Hp.
  - intros i' w0. rewrite upload_branch_run.
    destruct (uploaded_file i') as [f' |]; [| now left].
    rewrite process_excel_file_run.
    destruct (read_excel f') as [d' | e' |] eqn:Hr'; [| | now left].
    + destruct (Z.gtb_spec (len_rows d') MAX_ROWS); [now left |].
      destruct (Z.gtb_spec (len_columns d') MAX_COLS); [now left |].
      right. exists f', d', (fresh (dom (heap w0))).
      repeat split; try reflexivity; try assumption.
      * apply not_elem_of_dom, is_fresh.
      * cbn. apply lookup_insert_eq.
    + destruct (err_is_Exception e'); now left.
Qed.

End Turns.

(** ** Runs on the concrete runtime *)

Section Examples.

Import PyStr Demo Cases.



(** C3.  A [from ... import ...] line of a snippet is not removed: it
    reaches the executor, while an [import ...] line is removed. *)
Theorem from_import_line_survives :
  is_snippet (fenced snippet_from_import) = true ∧
  extract_code (fenced snippet_from_import)
    = "from os import system" +:+ nl +:+ "result = 1" ∧
  extract_code (fenced ("import os" +:+ nl +:+ "result = 1")) = "result = 1".
Proof. vm_compute. repeat split; reflexivity. Qed.

(** C4, counterexample.  Of two fenced blocks, the second without the
    python tag, the first is extracted. *)
Lemma plain_second_block_ignored :
  is_snippet two_blocks = true ∧ extract_code two_blocks = "result = 1".
Proof. vm_compute. split; reflexivity. Qed.

Lemma extract_last_python_block_witness :
  contains fence corrected_body = false ∧
  endswith "`" corrected_body = false ∧
  contains python_fence (corrected_body +:+ fence +:+ "") = false ∧
  raw_code_of (two_python_blocks "Draft:" (nl +:+ "result = 0" +:+ nl)
                 (nl +:+ "Corrected:" +:+ nl) corrected_body "")
    = strip corrected_body ∧
  extract_code (two_python_blocks "Draft:" (nl +:+ "result = 0" +:+ nl)
                  (nl +:+ "Corrected:" +:+ nl) corrected_body "")
    = drop_import_lines (strip corrected_body).
Proof.
  do 3 (split; [reflexivity |]).
  apply (extract_last_python_block "Draft:" (nl +:+ "result = 0" +:+ nl)
           (nl +:+ "Corrected:" +:+ nl) corrected_body ""); reflexivity.
Defined.

(** C5, counterexample.  A snippet that binds no [result] gives [None],
    and [None] gets neither the warning nor the unknown-format text. *)
Lemma no_result_no_warning :
  @execute_code (rt "") snippet_no_result 1%positive loaded
    = (Returns VNone, loaded) ∧
  @format_result (rt "") VNone loaded
    = (Returns "No result to display.", loaded).
Proof. vm_compute. split; reflexivity. Qed.

Lemma format_result_unknown_witness :
  VObject "Series" ≠ VNone ∧
  isinstance_DataFrame (VObject "Series") = false ∧
  isinstance_Figure (VObject "Series") = false ∧
  isinstance_plain (VObject "Series") = false ∧
  @format_result (rt "") (VObject "Series") loaded =
    (Returns "Assistant returned an unknown format.",
     drawn (StWarning "Assistant returned an unknown format.") loaded) ∧
  @format_result (rt "") VNone loaded = (Returns "No result to display.", loaded).
Proof.
  split; [discriminate |]. do 3 (split; [reflexivity |]).
  apply (@format_result_unknown (rt "") (VObject "Series") loaded);
    [discriminate | reflexivity | reflexivity | reflexivity].
Defined.




Lemma oversize_upload_rejected_witness :
  uploaded_file upload_click = Some workbook ∧
  @read_excel (runtime (Returns "") (Returns big_sheet)) workbook
    = Returns big_sheet ∧
  (len_rows big_sheet > MAX_ROWS ∨ len_columns big_sheet > MAX_COLS) ∧
  @process_excel_file (runtime (Returns "") (Returns big_sheet)) workbook blank
    = (Returns None, drawn (StError "Too many rows. Max allowed: 500") blank) ∧
  @main (runtime (Returns "") (Returns big_sheet)) upload_click blank
    = (Returns tt, drawn (StError "Too many rows. Max allowed: 500") blank).
Proof.
  split; [reflexivity |]. split; [reflexivity |]. split; [left; reflexivity |].
  destruct (@oversize_upload_rejected (runtime (Returns "") (Returns big_sheet))
              workbook big_sheet upload_click blank eq_refl eq_refl
              (or_introl eq_refl)) as (H1 & H2 & _).
  split; [exact H1 | exact (H2 eq_refl)].
Defined.

(** C9, counterexample.  The block assigns with [result=], the sentence
    before it holds "result =": the completion is taken for a snippet and
    its block is extracted for the executor. *)
Lemma token_outside_block_counts :
  contains result_token (fenced "result=df.mean()") = false ∧
  is_snippet prose_then_block = true ∧
  extract_code prose_then_block = "result=df.mean()".
Proof. vm_compute. repeat split; reflexivity. Qed.

Lemma plain_answer_without_token_witness :
  df (session loaded) = Some 1%positive ∧
  @generate_prompt (rt (fenced "result=df.mean()"))
     (frame_at (heap loaded) 1%positive) "mean of each column"
    = Returns (prompt_of sales_lines "mean of each column") ∧
  @generate_content (rt (fenced "result=df.mean()"))
     (prompt_of sales_lines "mean of each column")
    = Returns (fenced "result=df.mean()") ∧
  contains result_token (strip (fenced "result=df.mean()")) = false ∧
  is_snippet (strip (fenced "result=df.mean()")) = false ∧
  @answer_query (rt (fenced "result=df.mean()")) "mean of each column" loaded =
    (Returns tt,
     mkWorld (heap loaded)
       (answered "mean of each column" (strip (fenced "result=df.mean()"))
          (fenced "result=df.mean()") (session loaded))
       (screen loaded) (ambient loaded)).
Proof.
  do 4 (split; [reflexivity |]).
  destruct (@plain_answer_without_token (rt (fenced "result=df.mean()"))
              1%positive "mean of each column" loaded
              (prompt_of sales_lines "mean of each column")
              (fenced "result=df.mean()") eq_refl eq_refl eq_refl eq_refl)
    as (_ & H2 & H3).
  split; [exact H2 | exact H3].
Defined.



End Examples.
(** ** More about the text operations *)

Module PyStrMore.
Import PyStr PyStrFacts.

#[local] Arguments String.append !_ _ / : simpl nomatch.

Lemma startswith_app_l (p a b : string) :
  startswith p a = true → startswith p (a +:+ b) = true.
Proof.
  revert a; induction p as [|c p IH]; intros a H; [reflexivity |].
  destruct a as [|x a]; [discriminate |]. simpl in *.
  apply andb_prop in H as [-> H]. now rewrite (IH _ H).
Qed.

Lemma contains_app_l (p a b : string) :
  contains p a = true → contains p (a +:+ b) = true.
Proof.
  induction a as [|x a IH]; intros H.
  - simpl in H. rewrite orb_false_r in H.
    destruct p; [now destruct b | discriminate].
  - simpl in H. apply orb_prop in H as [H | H].
    + change (String x a +:+ b) with (String x (a +:+ b)).
      apply (startswith_app_l _ _ b) in H. simpl in *. now rewrite H.
    + simpl. rewrite (IH H). apply orb_true_r.
Qed.

Lemma contains_app_r (p a b : string) :
  contains p b = true → contains p (a +:+ b) = true.
Proof.
  intros H. induction a as [|x a IH]; [exact H |].
  simpl. rewrite IH. apply orb_true_r.
Qed.

(** A text that holds [a +:+ b] holds [a]. *)
Lemma startswith_shorter (a b s : string) :
  startswith (a +:+ b) s = true → startswith a s = true.
Proof.
  revert s; induction a as [|c a IH]; intros s H; [reflexivity |].
  destruct s as [|x s]; [discriminate |]. simpl in *.
  apply andb_prop in H as [-> H]. now rewrite (IH _ H).
Qed.

Lemma contains_shorter (a b s : string) :
  contains (a +:+ b) s = true → contains a s = true.
Proof.
  induction s as [|x s IH]; intros H; simpl in *.
  - rewrite orb_false_r in *. now apply startswith_shorter in H.
  - apply orb_prop in H as [H | H].
    + apply startswith_shorter in H. simpl in H. now rewrite H.
    + rewrite (IH H). apply orb_true_r.
Qed.

Lemma partition_none_inv (sep s : string) :
  partition sep s = None → contains sep s = false.
Proof.
  induction s as [|c s IH]; intros H; rewrite partition_step in H.
  - simpl. destruct (startswith sep ""); [discriminate | reflexivity].
  - simpl. destruct (startswith sep (String c s)); [discriminate |].
    destruct (partition sep s) as [[a b] |]; [discriminate |].
    now rewrite IH.
Qed.

(** The text before the first occurrence holds no occurrence. *)
Lemma partition_before (sep s a b : string) :
  sep ≠ EmptyString → partition sep s = Some (a, b) → contains sep a = false.
Proof.
  intros Hsep. revert a b; induction s as [|c s IH]; intros a b H;
    rewrite partition_step in H.
  - destruct (startswith sep ""); [| discriminate].
    injection H as <- _. destruct sep; [congruence | reflexivity].
  - destruct (startswith sep (String c s)) eqn:E.
    + injection H as <- _. destruct sep; [congruence | reflexivity].
    + destruct (partition sep s) as [[a' b'] |] eqn:P; [| discriminate].
      injection H as <- <-. simpl.
      rewrite (IH _ _ eq_refl), orb_false_r.
      destruct (startswith sep (String c a')) eqn:E'; [| reflexivity].
      apply partition_spec in P. subst s.
      apply (startswith_app_l _ _ (sep +:+ b')) in E'.
      simpl in E'. simpl in E. congruence.
Qed.

Lemma first_item_no_sep (sep s : string) :
  sep ≠ EmptyString → contains sep (first_item (split sep s)) = false.
Proof.
  intros Hsep. unfold split. rewrite split_rounds_S.
  destruct (partition sep s) as [[a b] |] eqn:P; cbn [first_item hd].
  - now apply (partition_before sep s a b).
  - now apply partition_none_inv.
Qed.

(** [lstrip] keeps an end of the text, [rstrip] a beginning. *)
Lemma lstrip_suffix (s : string) : ∃ t, s = t +:+ lstrip s.
Proof.
  induction s as [|c s [t IH]]; [now exists EmptyString |].
  simpl. destruct (is_space c); [| now exists EmptyString].
  exists (String c t). simpl. now f_equal.
Qed.

Lemma rstrip_prefix (s : string) : ∃ t, s = rstrip s +:+ t.
Proof.
  induction s as [|c s [t IH]]; [now exists EmptyString |].
  simpl. destruct (rstrip s) as [|x r] eqn:E.
  - destruct (is_space c).
    + now exists (String c s).
    + exists s. reflexivity.
  - exists t. simpl. f_equal. exact IH.
Qed.

Lemma contains_strip (sep s : string) :
  contains sep (strip s) = true → contains sep s = true.
Proof.
  unfold strip. intros H.
  destruct (rstrip_prefix (lstrip s)) as [t Ht].
  destruct (lstrip_suffix s) as [u Hu].
  rewrite Hu. apply contains_app_r. rewrite Ht. now apply contains_app_l.
Qed.

Lemma rstrip_idem (s : string) : rstrip (rstrip s) = rstrip s.
Proof.
  induction s as [|c s IH]; [reflexivity |].
  simpl. destruct (rstrip s) as [|x r] eqn:E.
  - destruct (is_space c) eqn:Ec; [reflexivity |]. simpl. now rewrite Ec.
  - simpl. simpl in IH. now rewrite IH.
Qed.

Lemma lstrip_fixed (s : string) :
  match s with
  | EmptyString => True
  | String c _ => is_space c = false
  end → lstrip s = s.
Proof. destruct s as [|c s]; [reflexivity |]. simpl. now intros ->. Qed.

Lemma lstrip_head (s : string) :
  match lstrip s with
  | EmptyString => True
  | String c _ => is_space c = false
  end.
Proof.
  induction s as [|c s IH]; [exact I |].
  simpl. destruct (is_space c) eqn:E; [exact IH | exact E].
Qed.

Lemma rstrip_head (s : string) :
  match s with
  | EmptyString => True
  | String c _ => is_space c = false
  end →
  match rstrip s with
  | EmptyString => True
  | String c _ => is_space c = false
  end.
Proof.
  destruct s as [|c s]; [trivial |]. intros H. simpl.
  destruct (rstrip s); [now rewrite H | exact H].
Qed.

Lemma strip_idem (s : string) : strip (strip s) = strip s.
Proof.
  unfold strip.
  rewrite (lstrip_fixed (rstrip (lstrip s))).
  - apply rstrip_idem.
  - apply rstrip_head, lstrip_head.
Qed.

Lemma lstrip_all_space (s : string) : all_space s = true → lstrip s = EmptyString.
Proof.
  induction s as [|c s IH]; [reflexivity |]. simpl.
  intros H. apply andb_prop in H as [-> H]. now apply IH.
Qed.

(** *** Lines *)

Lemma splitlines_lines_no_break (s line : string) :
  In line (splitlines s) → no_break line = true.
Proof.
  assert (G : ∀ n (t : string), (String.length t <= n)%nat →
              ∀ l, In l (splitlines t) → no_break l = true).
  { induction n as [|n IH]; intros t Hn l Hl.
    - destruct t; [contradiction | simpl in Hn; lia].
    - destruct t as [|c t]; [contradiction |]. simpl in Hn, Hl.
      destruct (is_linebreak c) eqn:Ec.
      + destruct Hl as [<- | Hl]; [reflexivity |].
        destruct t as [|c' t']; [contradiction |].
        destruct ((nat_of_ascii c =? 13)%nat && (nat_of_ascii c' =? 10)%nat).
        * apply (IH t'); [simpl in Hn; lia | exact Hl].
        * apply (IH (String c' t')); [lia | exact Hl].
      + pose proof (IH t ltac:(lia)) as Ht.
        destruct (splitlines t) as [|x xs].
        * destruct Hl as [<- | []]. simpl. now rewrite Ec.
        * destruct Hl as [<- | Hl].
          -- simpl. rewrite Ec. apply Ht. now left.
          -- apply Ht. now right. }
  apply (G (String.length s)). lia.
Qed.

Lemma splitlines_one_line (l : string) :
  no_break l = true →
  splitlines l = match l with EmptyString => [] | _ => [l] end.
Proof.
  induction l as [|c l IH]; [reflexivity |]. simpl.
  intros H. apply andb_prop in H as [Hc Hl].
  apply negb_true_iff in Hc. rewrite Hc, (IH Hl).
  now destruct l.
Qed.

Lemma splitlines_first_line (l rest : string) :
  no_break l = true →
  splitlines (l +:+ nl +:+ rest) = l :: splitlines rest.
Proof.
  induction l as [|c l IH]; intros H.
  - now destruct rest.
  - simpl in H. apply andb_prop in H as [Hc Hl].
    apply negb_true_iff in Hc.
    change (String c l +:+ nl +:+ rest) with (String c (l +:+ nl +:+ rest)).
    cbn [splitlines]. now rewrite Hc, (IH Hl).
Qed.

(** Cutting again what [join] put together gives no new line. *)
Lemma splitlines_join (lines : list string) (x : string) :
  (∀ l, In l lines → no_break l = true) →
  In x (splitlines (join nl lines)) → In x lines.
Proof.
  induction lines as [|l lines IH]; intros Hn Hx; [contradiction |].
  destruct lines as [|l' lines].
  - cbn [join] in Hx. rewrite splitlines_one_line in Hx by (apply Hn; now left).
    destruct l; [contradiction | exact Hx].
  - change (join nl (l :: l' :: lines)) with (l +:+ nl +:+ join nl (l' :: lines)) in Hx.
    rewrite splitlines_first_line in Hx by (apply Hn; now left).
    destruct Hx as [<- | Hx]; [now left | right].
    apply IH; [| exact Hx]. intros y Hy. apply Hn. now right.
Qed.

End PyStrMore.

(** ** More about extraction *)

Section Extraction.

Import PyStr PyStrFacts PyStrMore.

#[local] Arguments String.append !_ _ / : simpl nomatch.

(** X1.  What line 195 takes out of a completion, whatever the completion,
    holds no fence marker and neither starts nor ends with white space. *)
Theorem raw_code_clean (response : string) :
  contains fence (raw_code_of response) = false ∧
  strip (raw_code_of response) = raw_code_of response.
Proof.
  unfold raw_code_of. split; [| apply strip_idem].
  destruct (contains fence (strip _)) eqn:E; [| reflexivity].
  apply contains_strip in E.
  rewrite first_item_no_sep in E; [discriminate | discriminate].
Qed.

(** X2.  A python block that is never closed is taken all the same: when no
    fence follows the python marker, line 195 yields everything after the
    marker, stripped. *)
Theorem unclosed_block_extracted (pre rest : string) :
  contains fence rest = false →
  raw_code_of (pre +:+ python_fence +:+ rest) = strip rest.
Proof.
  intros H. unfold raw_code_of.
  assert (Hp : contains python_fence rest = false).
  { destruct (contains python_fence rest) eqn:E; [| reflexivity].
    change python_fence with (fence +:+ "python") in E.
    apply contains_shorter in E. congruence. }
  rewrite (split_python_last _ _ Hp).
  unfold split. rewrite split_rounds_S, (partition_none _ _ H). reflexivity.
Qed.

(** X3.  Whatever the completion, no line of the code handed to the
    executor starts, once stripped, with [import]. *)
Theorem extracted_code_has_no_import_line (response line : string) :
  In line (splitlines (extract_code response)) →
  startswith "import" (strip line) = false.
Proof.
  unfold extract_code, drop_import_lines. intros H.
  apply splitlines_join in H.
  - apply filter_In in H as [_ H]. now apply negb_true_iff in H.
  - intros l Hl. apply filter_In in Hl as [Hl _].
    now apply splitlines_lines_no_break in Hl.
Qed.

(** X17.  Only the text after the last python marker counts: what comes
    before it, earlier blocks included, has no effect on what line 195
    yields, which is the text between that marker and the next fence. *)
Theorem text_before_last_marker_ignored (pre rest : string) :
  contains python_fence rest = false →
  raw_code_of (pre +:+ python_fence +:+ rest)
    = strip (first_item (split fence rest)) ∧
  ∀ pre', raw_code_of (pre' +:+ python_fence +:+ rest)
          = raw_code_of (pre +:+ python_fence +:+ rest).
Proof.
  intros H. unfold raw_code_of. split.
  - now rewrite (split_python_last _ _ H).
  - intros pre'. now rewrite !(split_python_last _ _ H).
Qed.

End Extraction.

(** ** The prompt *)

Section Prompt.

Context `{RT : Runtime}.
Import PyStr PyStrFacts PyStrMore.

#[local] Arguments String.append !_ _ / : simpl nomatch.

Lemma rstrip_app (a b : string) :
  rstrip b ≠ EmptyString → rstrip (a +:+ b) = a +:+ rstrip b.
Proof.
  intros Hb. induction a as [|c a IH]; [reflexivity |].
  change (String c a +:+ b) with (String c (a +:+ b)).
  cbn [rstrip]. rewrite IH.
  destruct a as [|x a]; [| reflexivity].
  cbn. destruct (rstrip b); [congruence | reflexivity].
Qed.

Lemma contains_self (s : string) : contains s s = true.
Proof.
  destruct s as [|c s]; [reflexivity |]. cbn [contains].
  replace (String c s) with (String c s +:+ "") at 2
    by (clear; induction (String c s) as [|x t IH]; simpl; [reflexivity | now rewrite IH]).
  now rewrite startswith_app.
Qed.

Lemma prompt_of_text (lines : list string) (query : string) :
  prompt_of lines query =
    prompt_head +:+ join nl lines +:+ nl +:+ nl +:+
    "Question: " +:+ query +:+ nl +:+ nl +:+ "Answer:".
Proof.
  unfold prompt_of, strip. cbv zeta.
  set (ci := join nl lines).
  set (body := prompt_head +:+ ci +:+ nl +:+ nl +:+ "Question: " +:+ query).
  set (closing := nl +:+ nl +:+ "Answer:" +:+ nl).
  transitivity (rstrip (lstrip (nl +:+ body +:+ closing))).
  { f_equal. f_equal. unfold body, closing, prompt_head. cbn [join].
    rewrite !app_assoc. reflexivity. }
  change (lstrip (nl +:+ body +:+ closing)) with (lstrip (body +:+ closing)).
  assert (Hb : ∃ t, body = String "Y" t).
  { unfold body, prompt_head. cbn [join]. eexists. reflexivity. }
  destruct Hb as [t Hb].
  assert (Hl : lstrip (body +:+ closing) = body +:+ closing).
  { rewrite Hb. reflexivity. }
  rewrite Hl, rstrip_app by (unfold closing; discriminate).
  unfold body, closing. rewrite !app_assoc. reflexivity.
Qed.

(** The lines that [column_lines] returns are those of the columns, one
    each and in their order, every read of type and sample having
    returned. *)
Lemma column_lines_returned (d : DataFrame) (cols lines : list string) :
  column_lines d cols = Returns lines →
  Forall2 (fun col line =>
             ∃ ty sm,
               dtype_text d col = Returns ty ∧ sample_text d col = Returns sm ∧
               line = "- " +:+ col +:+ " (type: " +:+ ty +:+ ", sample: "
                      +:+ sm +:+ ")")
          cols lines.
Proof.
  revert lines. induction cols as [|col rest IH]; intros lines H.
  - injection H as <-. constructor.
  - cbn [column_lines] in H. unfold column_line, mbind, Outcome_bind in H.
    destruct (dtype_text d col) as [ty | |] eqn:Ht; try discriminate.
    destruct (sample_text d col) as [sm | |] eqn:Hs; try discriminate.
    cbn in H. fold (column_lines d rest) in H.
    destruct (column_lines d rest) as [ls | |]; try discriminate.
    injection H as <-. constructor; [eauto | now apply IH].
Qed.

(** X4.  When every read of a column's type and sample returns, the prompt
    is the fixed head, one line per column in column order, the question as
    the user typed it (no character of it removed or changed) and the
    closing "Answer:"; the [strip] of line 72 removes only the two line
    feeds that frame the template.  When a read raises (a label that
    occurs twice: [df[col]] has no [dtype]), [generate_prompt] raises the
    same and there is no prompt. *)
Theorem generate_prompt_text (d : DataFrame) (query : string) :
  generate_prompt d query =
    match column_lines d (df_columns d) with
    | Returns lines =>
        Returns (prompt_head +:+ join nl lines +:+ nl +:+ nl +:+
                 "Question: " +:+ query +:+ nl +:+ nl +:+ "Answer:")
    | Raises e => Raises e
    | Hangs => Hangs
    end ∧
  (∀ lines, column_lines d (df_columns d) = Returns lines →
     Forall2 (fun col line =>
                ∃ ty sm,
                  dtype_text d col = Returns ty ∧ sample_text d col = Returns sm ∧
                  line = "- " +:+ col +:+ " (type: " +:+ ty +:+ ", sample: "
                         +:+ sm +:+ ")")
             (df_columns d) lines) ∧
  (∀ p, generate_prompt d query = Returns p → contains query p = true) ∧
  (∀ col rest e,
     df_columns d = col :: rest → dtype_text d col = Raises e →
     generate_prompt d query = Raises e).
Proof.
  assert (E : generate_prompt d query =
    match column_lines d (df_columns d) with
    | Returns lines =>
        Returns (prompt_head +:+ join nl lines +:+ nl +:+ nl +:+
                 "Question: " +:+ query +:+ nl +:+ nl +:+ "Answer:")
    | Raises e => Raises e
    | Hangs => Hangs
    end).
  { unfold generate_prompt.
    destruct (column_lines d (df_columns d)); try reflexivity.
    unfold mbind, Outcome_bind, mret, Outcome_ret.
    now rewrite prompt_of_text. }
  split; [exact E |]. split; [apply column_lines_returned |]. split.
  - intros p. rewrite E.
    destruct (column_lines d (df_columns d)) as [lines | |]; try discriminate.
    set (text := prompt_head +:+ join nl lines +:+ nl +:+ nl +:+
                 "Question: " +:+ query +:+ nl +:+ nl +:+ "Answer:").
    intros H. replace p with text by congruence. unfold text.
    apply contains_app_r, contains_app_r, contains_app_r, contains_app_r,
      contains_app_r, contains_app_l, contains_self.
  - intros col rest e Hc Ht. rewrite E, Hc. cbn [column_lines].
    unfold column_line, mbind, Outcome_bind. now rewrite Ht.
Qed.

End Prompt.

(** ** More about one query *)

Section MoreTurns.

Context `{RT : Runtime}.
Import PyStr PyStrMore.




(** X8.  When the completion client raises an [Exception], the page gets
    "Gemini Flash error: " followed by the cause, the log gets the user turn
    and the fallback "No answer returned.", and nothing is executed. *)
Theorem client_failure_turn
    (frame : loc) (query : string) (w : World) (prompt : string) (e : LibError) :
  df (session w) = Some frame →
  generate_prompt (frame_at (heap w) frame) query = Returns prompt →
  generate_content prompt = Raises e →
  err_is_Exception e = true →
  answer_query query w =
    (Returns tt,
     mkWorld (heap w)
       (answered query "" "No answer returned." (session w))
       (screen w ++ [StError ("Gemini Flash error: " +:+ err_text e)])
       (ambient w)).
Proof.
  intros Hd Hp Hg He. rewrite answer_query_run, Hd, Hp, ask_gemini_run, Hg, He.
  cbn [is_snippet truthy andb]. unfold logged, asked, drawn, with_session.
  cbn [heap session screen ambient]. now rewrite session_answered.
Qed.

(** X9.  A completion of white space only (the empty completion included)
    is answered by the fallback "No answer returned.", even if nothing went
    wrong: the page and the heap stay as they were. *)
Theorem blank_completion_turn
    (frame : loc) (query : string) (w : World) (prompt t : string) :
  df (session w) = Some frame →
  generate_prompt (frame_at (heap w) frame) query = Returns prompt →
  generate_content prompt = Returns t →
  all_space t = true →
  answer_query query w =
    (Returns tt,
     mkWorld (heap w)
       (answered query "" "No answer returned." (session w))
       (screen w) (ambient w)).
Proof.
  intros Hd Hp Hg Hb. rewrite answer_query_run, Hd, Hp, ask_gemini_run, Hg.
  assert (Hs : strip t = "") by (unfold strip; now rewrite lstrip_all_space).
  rewrite Hs. cbn [is_snippet truthy andb]. unfold logged, asked, with_session.
  cbn [heap session screen ambient]. now rewrite session_answered.
Qed.

End MoreTurns.

(** ** Runs of the script *)

Section Script.

Context `{RT : Runtime}.
Import PyStr.

Lemma main_idle (i : Inputs) (w : World) :
  uploaded_file i = None →
  remove_clicked i = false →
  reset_clicked i = false →
  example_clicked i = None →
  send i = false ∨ query i = "" →
  example_query (session w) = None →
  main i w =
    match df (session w) with
    | None => (Returns tt, w)
    | Some frame =>
        match preview_fault (df_head (frame_at (heap w) frame)) with
        | Some e => (Raises e, w)
        | None => (Returns tt, previewed frame w)
        end
    end.
Proof.
  intros Hu Hr Hs He Hq Hp. rewrite main_run.
  destruct (df (session w)) as [frame |].
  - rewrite (chat_branch_run frame i w Hr Hs), He.
    destruct (preview_fault _); [reflexivity |].
    now apply queries_idle.
  - unfold upload_branch. now rewrite Hu.
Qed.



(** X10.  While no dataset is stored, a workbook within both bounds (500
    rows and 20 columns included) is stored as read: the session refers to a
    new frame equal to the one read, the frames already on the heap are
    untouched, the file name is kept, the log is untouched, and the run ends
    by asking for a rerun after the success message. *)
Theorem upload_stores_frame
    (f : UploadedFile) (d : DataFrame) (i : Inputs) (w : World) :
  df (session w) = None →
  uploaded_file i = Some f →
  read_excel f = Returns d →
  len_rows d <= MAX_ROWS →
  len_columns d <= MAX_COLS →
  ∃ l,
    heap w !! l = None ∧
    main i w =
      (Raises rerun,
       mkWorld (<[ l := d ]> (heap w))
         (set_uploaded_filename (Some (file_name f))
            (set_df (Some l) (session w)))
         (screen w ++ [StSuccess "File uploaded successfully!"])
         (ambient w)) ∧
    frame_at (heap (snd (main i w))) l = d ∧
    (∀ l', l' ≠ l → heap (snd (main i w)) !! l' = heap w !! l') ∧
    chat_history (session (snd (main i w))) = chat_history (session w).
Proof.
  intros Hn Hi Hr Hrows Hcols.
  exists (fresh (dom (heap w))).
  assert (Hm : main i w =
      (Raises rerun,
       mkWorld (<[ fresh (dom (heap w)) := d ]> (heap w))
         (set_uploaded_filename (Some (file_name f))
            (set_df (Some (fresh (dom (heap w)))) (session w)))
         (screen w ++ [StSuccess "File uploaded successfully!"])
         (ambient w))).
  { rewrite main_run, Hn, upload_branch_run, Hi, process_excel_file_run, Hr.
    destruct (Z.gtb_spec (len_rows d) MAX_ROWS); [lia |].
    destruct (Z.gtb_spec (len_columns d) MAX_COLS); [lia |]. reflexivity. }
  split; [apply not_elem_of_dom, is_fresh |]. split; [exact Hm |].
  rewrite Hm. cbn [snd heap session]. split; [| split].
  - unfold frame_at. now rewrite lookup_insert_eq.
  - intros l' Hl. now rewrite lookup_insert_ne.
  - destruct (session w); reflexivity.
Qed.

(** X11.  While no dataset is stored, a file that [pd.read_excel] cannot
    read (it raises an [Exception]) gives the message "Error processing
    Excel file: " followed by the cause; nothing is stored and the run goes
    on to its end. *)
Theorem unreadable_upload_rejected
    (f : UploadedFile) (e : LibError) (i : Inputs) (w : World) :
  df (session w) = None →
  uploaded_file i = Some f →
  read_excel f = Raises e →
  err_is_Exception e = true →
  main i w =
    (Returns tt,
     drawn (StError ("Error processing Excel file: " +:+ err_text e)) w).
Proof.
  intros Hn Hi Hr He.
  now rewrite main_run, Hn, upload_branch_run, Hi, process_excel_file_run, Hr, He.
Qed.

(** X12.  A click on "Remove File" or on "Reset File" empties the session
    (no dataset, empty log, no pending example) and ends the run at once:
    the question sent with the same run, if any, is not answered.  The next
    run is on the upload branch. *)
Theorem reset_clears_session (frame : loc) (i : Inputs) (w : World) :
  df (session w) = Some frame →
  remove_clicked i = true ∨ reset_clicked i = true →
  main i w
    = (Raises rerun, mkWorld (heap w) init_session (screen w) (ambient w)) ∧
  ∀ i', main i' (snd (main i w)) = upload_branch i' (snd (main i w)).
Proof.
  intros Hd Hc.
  assert (Hm : main i w
               = (Raises rerun,
                  mkWorld (heap w) init_session (screen w) (ambient w))).
  { rewrite main_run, Hd. unfold chat_branch, mbind, M_bind, bind.
    destruct (remove_clicked i); [reflexivity |].
    destruct Hc as [Hc | Hc]; [discriminate |]. now rewrite Hc. }
  split; [exact Hm |]. intros i'. now rewrite Hm.
Qed.

(** X13.  A run in which the user did nothing (no file, no click, no
    question or an empty one, no pending example) changes neither the
    frames nor the session.  Without a dataset it draws nothing; with one
    it draws the preview of the first five rows of the stored frame, and
    when that display call raises, the run ends there with the
    exception. *)
Theorem idle_run_only_previews (i : Inputs) (w : World) :
  uploaded_file i = None →
  remove_clicked i = false →
  reset_clicked i = false →
  example_clicked i = None →
  send i = false ∨ query i = "" →
  example_query (session w) = None →
  main i w =
    match df (session w) with
    | None => (Returns tt, w)
    | Some frame =>
        match preview_fault (df_head (frame_at (heap w) frame)) with
        | Some e => (Raises e, w)
        | None =>
            (Returns tt,
             mkWorld (heap w) (session w)
               (screen w ++ [StPreview (df_head (frame_at (heap w) frame))])
               (ambient w))
        end
    end ∧
  heap (snd (main i w)) = heap w ∧
  session (snd (main i w)) = session w.
Proof.
  intros Hu Hr Hs He Hq Hp.
  rewrite (main_idle i w Hu Hr Hs He Hq Hp).
  split; [reflexivity |].
  destruct (df (session w)) as [frame |]; [| now split].
  destruct (preview_fault _); now split.
Qed.



End Script.

(** ** Example buttons *)

Section ExampleButtons.

Context `{RT : Runtime}.
Import PyStr.



End ExampleButtons.

(** ** More runs on the concrete runtimes *)

Section MoreExamples.

Import PyStr Demo Cases.



Lemma unclosed_block_extracted_witness :
  contains fence unclosed_rest = false ∧
  raw_code_of (unclosed_pre +:+ python_fence +:+ unclosed_rest)
    = strip unclosed_rest.
Proof.
  split; [reflexivity |].
  apply (unclosed_block_extracted unclosed_pre unclosed_rest). reflexivity.
Defined.

Lemma text_before_last_marker_ignored_witness :
  contains python_fence (corrected_body +:+ fence) = false ∧
  raw_code_of ("Draft:" +:+ python_fence +:+ corrected_body +:+ fence)
    = strip (first_item (split fence (corrected_body +:+ fence))) ∧
  ∀ pre', raw_code_of (pre' +:+ python_fence +:+ corrected_body +:+ fence)
          = raw_code_of ("Draft:" +:+ python_fence +:+ corrected_body +:+ fence).
Proof.
  split; [reflexivity |].
  apply (text_before_last_marker_ignored "Draft:" (corrected_body +:+ fence)).
  reflexivity.
Defined.

Lemma extracted_code_has_no_import_line_witness :
  In "result = 1"
     (splitlines (extract_code (fenced ("import os" +:+ nl +:+ "result = 1")))) ∧
  startswith "import" (strip "result = 1") = false.
Proof.
  split; [left; reflexivity |].
  apply (extracted_code_has_no_import_line
           (fenced ("import os" +:+ nl +:+ "result = 1")) "result = 1").
  left. reflexivity.
Defined.

(** The prompt of a frame in which a label occurs twice is never built:
    the read of the column's type raises. *)
Lemma duplicated_label_no_prompt :
  @generate_prompt (rt "") twins "how many rows?"
    = Raises (error "AttributeError" "'DataFrame' object has no attribute 'dtype'") ∧
  @generate_prompt (rt "") sales "how many rows?"
    = Returns (prompt_of sales_lines "how many rows?").
Proof. vm_compute. split; reflexivity. Qed.


(** The snippet that empties the log is answered all the same; the log is
    left with the reply alone.  The same happens when the log is emptied by
    the [__str__] of the exception that the snippet raises. *)
Lemma clearing_snippet_turn :
  chat_history
    (session (snd (@answer_query (rt (fenced snippet_clear_log))
                     "how many rows?" loaded)))
    = [mkTurn Assistant "1"] ∧
  ¬ @turn_keeps_session (rt (fenced snippet_clear_log))
      "how many rows?" loaded ∧
  @answer_query (rt (fenced snippet_raise_wiper))
     "how many rows?" loaded
    = (Returns tt,
       logged (mkTurn Assistant "No result to display.")
         (drawn (StError "Code execution failed: gone")
            (log_cleared
               (before_snippet "how many rows?"
                  (strip (fenced snippet_raise_wiper)) loaded)))) ∧
  chat_history
    (session (snd (@answer_query (rt (fenced snippet_raise_wiper))
                     "how many rows?" loaded)))
    = [mkTurn Assistant "No result to display."].
Proof.
  split; [vm_compute; reflexivity |]. split; [| split; vm_compute; reflexivity].
  intros K. vm_compute in K. destruct (K eq_refl) as [K1 _]. discriminate K1.
Qed.


Lemma client_failure_turn_witness :
  df (session loaded) = Some 1%positive ∧
  @generate_prompt (runtime (Raises quota_error) (Returns sales))
     (frame_at (heap loaded) 1%positive) "how many rows?"
    = Returns (prompt_of sales_lines "how many rows?") ∧
  @generate_content (runtime (Raises quota_error) (Returns sales))
     (prompt_of sales_lines "how many rows?")
    = Raises quota_error ∧
  err_is_Exception quota_error = true ∧
  @answer_query (runtime (Raises quota_error) (Returns sales))
     "how many rows?" loaded =
    (Returns tt,
     mkWorld (heap loaded)
       (answered "how many rows?" "" "No answer returned." (session loaded))
       [StError "Gemini Flash error: 429 quota exceeded"] (ambient loaded)).
Proof.
  do 4 (split; [reflexivity |]).
  apply (@client_failure_turn (runtime (Raises quota_error) (Returns sales))
           1%positive "how many rows?" loaded
           (prompt_of sales_lines "how many rows?") quota_error); reflexivity.
Defined.

Lemma blank_completion_turn_witness :
  df (session loaded) = Some 1%positive ∧
  @generate_prompt (rt blank_completion)
     (frame_at (heap loaded) 1%positive) "how many rows?"
    = Returns (prompt_of sales_lines "how many rows?") ∧
  @generate_content (rt blank_completion)
     (prompt_of sales_lines "how many rows?")
    = Returns blank_completion ∧
  all_space blank_completion = true ∧
  @answer_query (rt blank_completion) "how many rows?" loaded =
    (Returns tt,
     mkWorld (heap loaded)
       (answered "how many rows?" "" "No answer returned." (session loaded))
       (screen loaded) (ambient loaded)).
Proof.
  do 4 (split; [reflexivity |]).
  apply (@blank_completion_turn (rt blank_completion) 1%positive
           "how many rows?" loaded (prompt_of sales_lines "how many rows?")
           blank_completion); reflexivity.
Defined.

Lemma upload_stores_frame_witness :
  df (session blank) = None ∧
  uploaded_file upload_click = Some workbook ∧
  @read_excel (runtime (Returns "") (Returns full_sheet)) workbook
    = Returns full_sheet ∧
  len_rows full_sheet <= MAX_ROWS ∧
  len_columns full_sheet <= MAX_COLS ∧
  ∃ l,
    heap blank !! l = None ∧
    @main (runtime (Returns "") (Returns full_sheet)) upload_click blank =
      (Raises rerun,
       mkWorld (<[ l := full_sheet ]> (heap blank))
         (set_uploaded_filename (Some (file_name workbook))
            (set_df (Some l) (session blank)))
         (screen blank ++ [StSuccess "File uploaded successfully!"])
         (ambient blank)) ∧
    frame_at
      (heap (snd (@main (runtime (Returns "") (Returns full_sheet))
                    upload_click blank))) l = full_sheet ∧
    (∀ l', l' ≠ l →
       heap (snd (@main (runtime (Returns "") (Returns full_sheet))
                    upload_click blank)) !! l' = heap blank !! l') ∧
    chat_history
      (session (snd (@main (runtime (Returns "") (Returns full_sheet))
                       upload_click blank)))
      = chat_history (session blank).
Proof.
  do 3 (split; [reflexivity |]).
  split; [vm_compute; discriminate |]. split; [vm_compute; discriminate |].
  apply (@upload_stores_frame (runtime (Returns "") (Returns full_sheet))
           workbook full_sheet upload_click blank);
    try reflexivity; vm_compute; discriminate.
Defined.

Lemma unreadable_upload_rejected_witness :
  df (session blank) = None ∧
  uploaded_file upload_click = Some workbook ∧
  @read_excel (runtime (Returns "") (Raises format_error)) workbook
    = Raises format_error ∧
  err_is_Exception format_error = true ∧
  @main (runtime (Returns "") (Raises format_error)) upload_click blank =
    (Returns tt,
     drawn (StError "Error processing Excel file: Excel file format cannot be determined")
           blank).
Proof.
  do 4 (split; [reflexivity |]).
  apply (@unreadable_upload_rejected (runtime (Returns "") (Raises format_error))
           workbook format_error upload_click blank); reflexivity.
Defined.

Lemma reset_clears_session_witness :
  df (session loaded) = Some 1%positive ∧
  (remove_clicked remove_click = true ∨ reset_clicked remove_click = true) ∧
  @main (rt "lost") remove_click loaded
    = (Raises rerun,
       mkWorld (heap loaded) init_session (screen loaded) (ambient loaded)) ∧
  ∀ i', @main (rt "lost") i' (snd (@main (rt "lost") remove_click loaded))
        = @upload_branch (rt "lost") i' (snd (@main (rt "lost") remove_click loaded)).
Proof.
  split; [reflexivity |]. split; [left; reflexivity |].
  apply (@reset_clears_session (rt "lost") 1%positive remove_click loaded);
    [reflexivity | left; reflexivity].
Defined.

Lemma idle_run_only_previews_witness :
  uploaded_file idle = None ∧ remove_clicked idle = false ∧
  reset_clicked idle = false ∧ example_clicked idle = None ∧
  (send idle = false ∨ query idle = "") ∧
  example_query (session loaded) = None ∧
  @main (rt "") idle loaded
    = (Returns tt,
       mkWorld (heap loaded) (session loaded) [StPreview sales] (ambient loaded)).
Proof.
  do 4 (split; [reflexivity |]). split; [left; reflexivity |].
  split; [reflexivity |].
  destruct (@idle_run_only_previews (rt "") idle loaded eq_refl eq_refl eq_refl
              eq_refl (or_introl eq_refl) eq_refl) as [H _].
  exact H.
Defined.

(** When the display call of the preview raises, the idle run ends with
    that exception: the rest of the page is not drawn. *)
Lemma idle_run_preview_fails :
  @main (rt_preview_fails "") idle loaded = (Raises arrow_error, loaded).
Proof. vm_compute. reflexivity. Qed.




End MoreExamples.
